(** * gpu-cpu-fan-control: a shallow embedding of [FanController]

    The Python class [FanController] of
    [linuxroot/usr/local/bin/gpu-cpu-fan-control.py] is embedded method by
    method.  The object's mutable field [current_speed], the logger and the
    sequence of spawned commands are threaded through a state-and-exception
    monad; the outside world (subprocess results, thermal zone files) is an
    explicit environment indexed by the control cycle. *)

From Stdlib Require Import ZArith List String Ascii Bool Lia.
From Stdlib Require DecimalString HexadecimalString.
Import ListNotations.

Open Scope string_scope.
Open Scope list_scope.
Open Scope Z_scope.

(** ** Python strings

    A [str] is modelled by the UTF-8 text it denotes.  Splitting on a
    separator and substring search are byte-exact on UTF-8, so [str_split]
    and [str_in] agree with [str.split(sep)] and [sub in s]. *)

Definition LF : string := String (ascii_of_nat 10) EmptyString.

(** The degree marker used by [sensors] (U+00B0 followed by [C]). *)
Definition DEGREES_C : string := "°C".

(** [split_from sep skip s] scans [s]; [skip] counts the characters of a
    separator occurrence that still have to be dropped.  It returns the
    piece under construction and the pieces that follow it. *)
Fixpoint split_from (sep : string) (skip : nat) (s : string)
  : string * list string :=
  match s with
  | EmptyString => (EmptyString, [])
  | String c rest =>
      match skip with
      | S k => split_from sep k rest
      | O =>
          if prefix sep s
          then (EmptyString,
                let (p, ps) := split_from sep (String.length sep - 1) rest in
                p :: ps)
          else let (p, ps) := split_from sep 0 rest in (String c p, ps)
      end
  end.

(** [s.split(sep)] for a non-empty separator. *)
Definition str_split (sep s : string) : list string :=
  let (p, ps) := split_from sep 0 s in p :: ps.

(** [sub in s]. *)
Fixpoint str_in (sub s : string) : bool :=
  prefix sub s ||
  match s with
  | EmptyString => false
  | String _ rest => str_in sub rest
  end.

(** Truthiness of a [str]: the empty string is falsy. *)
Definition truthy (s : string) : bool :=
  match s with EmptyString => false | String _ _ => true end.

(** [f"{n}"] for an [int]. *)
Definition format_int (n : Z) : string :=
  DecimalString.NilZero.string_of_int (Z.to_int n).

Fixpoint zero_pad (width : nat) (digits : string) : string :=
  match width with
  | O => digits
  | S w =>
      if Nat.ltb (String.length digits) width
      then zero_pad w (String "0" digits)
      else digits
  end.

(** [f"{n:#04x}"]: sign, [0x] prefix, lower-case digits, zero padded to a
    total width of four characters. *)
Definition format_hex04 (n : Z) : string :=
  let digits :=
    HexadecimalString.NilZero.string_of_uint (N.to_hex_uint (Z.abs_N n)) in
  if n <? 0
  then "-0x" ++ zero_pad 1 digits
  else "0x" ++ zero_pad 2 digits.

(** ** Floating point

    The program computes with doubles in one place only, the percentage of
    line 107, and only whether that computation raises matters to it. *)

(** The least magnitude that rounds to [2^1024], half a unit in the last
    place above the largest double [2^1024 - 2^971]; the tie itself rounds
    up, to the even significand. *)
Definition DBL_OVERFLOW : Z := 2 ^ 1024 - 2 ^ 970.

(** [a / b] on two [int]s, [b] not 0, raises [OverflowError]: the exact
    quotient is at least [DBL_OVERFLOW] in magnitude. *)
Definition true_divide_overflows (a b : Z) : bool :=
  Z.abs a >=? Z.abs b * DBL_OVERFLOW.

(** ** Exceptions *)

(** How [subprocess.run] is called: [shell=True] with a command line, or with
    an argument vector. *)
Inductive invocation : Type :=
| Shell (command : string)
| Argv (args : list string).

(** The subclasses of [Exception] that the program's collaborators raise. *)
Inductive exn : Type :=
| CalledProcessError (returncode : Z) (cmd : invocation)
| FileNotFoundError
| PermissionError
| OSError            (* any other OSError: EIO, ENODATA, IsADirectoryError *)
| ValueError
| IndexError
| OverflowError.

(** What a [raise] carries: an [Exception], or one of the two
    [BaseException]s that [except Exception] does not catch. *)
Inductive raised : Type :=
| Exc (e : exn)
| KeyboardInterrupt
| SystemExit (code : Z).

(** The parsers of the Python runtime are an interface of the model:
    every theorem below holds whatever they compute. *)
Class PyBuiltins : Type := {
  (** [s.strip()] *)
  str_strip : string -> string;
  (** [int(s)]; [None] when it raises [ValueError] *)
  int_of_str : string -> option Z;
  (** [int(float(s))]; the exception is [ValueError] or [OverflowError] *)
  int_of_float_str : string -> Z + exn
}.

(** ** The outside world *)

(** What a spawned process does: it completes with a return code and its
    standard output, or [subprocess.run] itself raises. *)
Inductive proc_outcome : Type :=
| Completed (returncode : Z) (stdout : string)
| SpawnRaises (e : exn).

(** What opening and reading a file does. *)
Inductive file_outcome : Type :=
| FileText (text : string)
| FileRaises (e : exn).

Record environment : Type := mkEnv {
  (** the behaviour of every command that may be spawned *)
  proc : invocation -> proc_outcome;
  (** the files matched by [/sys/class/thermal/thermal_zone*/temp] *)
  thermal_zones : list file_outcome
}.

(** The environment during each control cycle; [time.sleep] moves to the
    next one. *)
Definition world : Type := nat -> environment.

(** ** Logging *)

Inductive level : Type := LvInfo | LvWarning | LvError.

(** One constructor per [self.logger] call of the source. *)
Inductive message : Type :=
| MsgRequired (cmd : string)                 (* line 75 *)
| MsgInstallIpmitool                         (* line 77 *)
| MsgInstallNvidia                           (* line 79 *)
| MsgCommandFailed (command : invocation)    (* line 94 *)
| MsgError (e : exn)                         (* line 95 *)
| MsgFanSpeedSet (speed_hex : Z) (reason : string)  (* line 108 *)
| MsgFailedSetFanSpeed (e : exn)             (* line 112 *)
| MsgRestoredAuto                            (* line 118 *)
| MsgFailedRestore (e : exn)                 (* line 120 *)
| MsgCaughtSignal                            (* line 124 *)
| MsgSensorsFailed (e : exn)                 (* line 160 *)
| MsgGpuFailed (e : exn)                     (* line 192 *)
| MsgStarting                                (* line 226 *)
| MsgTemperatures (gpu_temp cpu_temp gpu_util : Z)  (* line 237 *)
| MsgUnexpected (e : exn).                   (* line 254 *)

(** ** The controller's state and its monad *)

Record state : Type := mkState {
  (** [self.current_speed] *)
  current_speed : Z;
  (** number of completed [time.sleep(self.INTERVAL)] calls *)
  clock : nat;
  (** records handed to [self.logger], oldest first *)
  log : list (level * message);
  (** every [subprocess.run] made so far, oldest first *)
  calls : list invocation
}.

Inductive result (A : Type) : Type :=
| Ok (a : A)
| Raise (r : raised)
| Unfinished.   (* the observed prefix of [while True] is exhausted *)

Arguments Ok {A} a.
Arguments Raise {A} r.
Arguments Unfinished {A}.

Definition M (A : Type) : Type := state -> result A * state.

Definition ret {A} (a : A) : M A := fun st => (Ok a, st).

Definition bind {A B} (m : M A) (k : A -> M B) : M B :=
  fun st =>
    match m st with
    | (Ok a, st') => k a st'
    | (Raise r, st') => (Raise r, st')
    | (Unfinished, st') => (Unfinished, st')
    end.

Definition raise {A} (r : raised) : M A := fun st => (Raise r, st).

(** [try: body except ...]: [handlers r] is the body of the first clause
    that matches [r], if any.  An exception raised inside a clause is not
    offered to the other clauses. *)
Definition try_except {A} (body : M A) (handlers : raised -> option (M A))
  : M A :=
  fun st =>
    match body st with
    | (Raise r, st') =>
        match handlers r with
        | Some handler => handler st'
        | None => (Raise r, st')
        end
    | other => other
    end.

(** [except Exception as e: handler e] *)
Definition except_Exception {A} (handler : exn -> M A) (r : raised)
  : option (M A) :=
  match r with
  | Exc e => Some (handler e)
  | _ => None
  end.

(** [except subprocess.CalledProcessError as e: handler e] *)
Definition except_CalledProcessError {A} (handler : exn -> M A) (r : raised)
  : option (M A) :=
  match r with
  | Exc (CalledProcessError rc cmd) => Some (handler (CalledProcessError rc cmd))
  | _ => None
  end.

Declare Scope py_scope.
Delimit Scope py_scope with py.
Notation "x <- m ;; k" := (bind m (fun x => k))
  (at level 100, m at next level, right associativity) : py_scope.
Notation "m ;; k" := (bind m (fun _ => k))
  (at level 100, right associativity) : py_scope.
Open Scope py_scope.

Definition add_log (lv : level) (msg : message) (st : state) : state :=
  mkState (current_speed st) (clock st) (log st ++ [(lv, msg)]) (calls st).

Definition add_call (inv : invocation) (st : state) : state :=
  mkState (current_speed st) (clock st) (log st) (calls st ++ [inv]).

Definition with_speed (v : Z) (st : state) : state :=
  mkState v (clock st) (log st) (calls st).

Definition tick (st : state) : state :=
  mkState (current_speed st) (S (clock st)) (log st) (calls st).

Definition get_current_speed : M Z := fun st => (Ok (current_speed st), st).

Definition set_current_speed (v : Z) : M unit :=
  fun st => (Ok tt, with_speed v st).

(** [self.logger.info], [.warning], [.error] *)
Definition logger (lv : level) (msg : message) : M unit :=
  fun st => (Ok tt, add_log lv msg st).

(** [time.sleep(self.INTERVAL)] *)
Definition time_sleep : M unit := fun st => (Ok tt, tick st).

(** ** Configuration ([__init__], lines 15-43) *)

Definition GPU_TEMP_LOW : Z := 50.
Definition GPU_TEMP_MEDIUM : Z := 60.
Definition GPU_TEMP_HIGH : Z := 70.
Definition GPU_TEMP_CRITICAL : Z := 80.

Definition CPU_TEMP_LOW : Z := 35.
Definition CPU_TEMP_MEDIUM : Z := 45.
Definition CPU_TEMP_HIGH : Z := 60.
Definition CPU_TEMP_CRITICAL : Z := 75.

Definition UTIL_LOW : Z := 30.
Definition UTIL_HIGH : Z := 70.

Definition FAN_DEFAULT : Z := 0x20.
Definition FAN_MEDIUM : Z := 0x32.
Definition FAN_HIGH : Z := 0x48.
Definition FAN_MAX : Z := 0x64.

(** The state [__init__] leaves behind. *)
Definition initial_state : state := mkState FAN_DEFAULT 0 [] [].

(** The four fan levels, in increasing order. *)
Definition fan_levels : list Z := [FAN_DEFAULT; FAN_MEDIUM; FAN_HIGH; FAN_MAX].

(** The command lines of the source (lines 102, 117, 105, 148, 168). *)
Definition CMD_MANUAL : string := "ipmitool raw 0x30 0x30 0x01 0x00".
Definition CMD_AUTO : string := "ipmitool raw 0x30 0x30 0x01 0x01".
Definition CMD_SPEED (speed_hex : Z) : string :=
  "ipmitool raw 0x30 0x30 0x02 0xff " ++ format_hex04 speed_hex.
Definition CMD_SENSORS : string := "sensors".
Definition CMD_NVIDIA_SMI : string :=
  "nvidia-smi --query-gpu=temperature.gpu,utilization.gpu --format=csv,noheader,nounits".

(** The reasons returned by [determine_fan_speed]. *)
Definition REASON_CRITICAL (gpu_temp cpu_temp : Z) : string :=
  "CRITICAL temperature (GPU: " ++ format_int gpu_temp ++ "°C, CPU: "
    ++ format_int cpu_temp ++ "°C)".
Definition REASON_HIGH (gpu_temp cpu_temp : Z) : string :=
  "HIGH temperature (GPU: " ++ format_int gpu_temp ++ "°C, CPU: "
    ++ format_int cpu_temp ++ "°C)".
Definition REASON_MEDIUM : string := "MEDIUM temperature or HIGH utilization".
Definition REASON_LOW : string := "LOW temperatures and utilization".
Definition REASON_MAINTAIN : string := "maintaining current level".

(** ** The methods of [FanController] *)

Section Controller.

Context {builtins : PyBuiltins}.
Variable w : world.

(** [subprocess.run(inv, ..., check=True)]: the call is recorded, the
    current environment answers, and a non-zero return code raises
    [CalledProcessError].  The value is the process's standard output. *)
Definition subprocess_run (inv : invocation) : M string :=
  fun st =>
    let st' := add_call inv st in
    match proc (w (clock st)) inv with
    | Completed returncode stdout =>
        if returncode =? 0
        then (Ok stdout, st')
        else (Raise (Exc (CalledProcessError returncode inv)), st')
    | SpawnRaises e => (Raise (Exc e), st')
    end.

(** [sys.exit(code)] *)
Definition sys_exit {A} (code : Z) : M A := raise (SystemExit code).

(** [check_commands] (lines 67-80). *)
Fixpoint check_commands_loop (required_commands : list string) : M unit :=
  match required_commands with
  | [] => ret tt
  | cmd :: rest =>
      try_except
        (subprocess_run (Argv ["which"; cmd]) ;; ret tt)
        (except_CalledProcessError (fun _ =>
           logger LvError (MsgRequired cmd) ;;
           (if String.eqb cmd "ipmitool"
            then logger LvError MsgInstallIpmitool
            else if String.eqb cmd "nvidia-smi"
                 then logger LvError MsgInstallNvidia
                 else ret tt) ;;
           sys_exit 1)) ;;
      check_commands_loop rest
  end.

Definition check_commands : M unit :=
  check_commands_loop ["ipmitool"; "nvidia-smi"].

(** [run_command] (lines 82-96). *)
Definition run_command (command : string) (capture_output : bool)
  : M (option string) :=
  try_except
    (stdout <- subprocess_run (Shell command) ;;
     ret (if capture_output then Some (str_strip stdout) else None))
    (except_CalledProcessError (fun e =>
       logger LvError (MsgCommandFailed (Shell command)) ;;
       logger LvError (MsgError e) ;;
       ret None)).

(** [percentage = (speed_hex / 0x64) * 100] (line 107).  The true division
    of two [int]s rounds the quotient to the nearest double and raises
    [OverflowError] when the rounded quotient is out of range; the
    multiplication of the double by 100 cannot raise (it saturates at
    infinity).  The value only feeds the log record, which keeps
    [speed_hex] itself, so the division is modelled by the one way in
    which it affects control. *)
Definition percentage (speed_hex : Z) : M unit :=
  if true_divide_overflows speed_hex 0x64
  then raise (Exc OverflowError)
  else ret tt.

(** [set_fan_speed] (lines 98-112). *)
Definition set_fan_speed (speed_hex : Z) (reason : string) : M unit :=
  try_except
    (run_command CMD_MANUAL false ;;
     run_command (CMD_SPEED speed_hex) false ;;
     percentage speed_hex ;;
     logger LvInfo (MsgFanSpeedSet speed_hex reason) ;;
     set_current_speed speed_hex)
    (except_Exception (fun e => logger LvError (MsgFailedSetFanSpeed e))).

(** [restore_auto_fan] (lines 114-120). *)
Definition restore_auto_fan : M unit :=
  try_except
    (run_command CMD_AUTO false ;;
     logger LvInfo MsgRestoredAuto)
    (except_Exception (fun e => logger LvError (MsgFailedRestore e))).

(** [cleanup] (lines 122-126). *)
Definition cleanup : M unit :=
  logger LvInfo MsgCaughtSignal ;;
  restore_auto_fan ;;
  sys_exit 0.

(** *** Sensors *)

(** [with open(zone, 'r') as f: ... f.read()] *)
Definition open_read (zone : file_outcome) : M string :=
  match zone with
  | FileText text => ret text
  | FileRaises e => raise (Exc e)
  end.

(** [int(s)] *)
Definition py_int (s : string) : M Z :=
  match int_of_str s with
  | Some n => ret n
  | None => raise (Exc ValueError)
  end.

(** [except (FileNotFoundError, ValueError, PermissionError)] (line 142) *)
Definition except_zone_errors {A} (handler : M A) (r : raised)
  : option (M A) :=
  match r with
  | Exc FileNotFoundError | Exc ValueError | Exc PermissionError =>
      Some handler
  | _ => None
  end.

(** The [for zone in thermal_zones] loop of [get_cpu_temp] (lines 135-143);
    the local variable [max_temp] is passed along. *)
Fixpoint thermal_zone_loop (zones : list file_outcome) (max_temp : Z) : M Z :=
  match zones with
  | [] => ret max_temp
  | zone :: rest =>
      max_temp' <-
        try_except
          (text <- open_read zone ;;
           temp_millidegrees <- py_int (str_strip text) ;;
           let temp_celsius := temp_millidegrees / 1000 in
           ret (if temp_celsius >? max_temp then temp_celsius else max_temp))
          (except_zone_errors (ret max_temp)) ;;
      thermal_zone_loop rest max_temp'
  end.

(** The [for line in lines] loop of the fallback (lines 152-158).  It has no
    effect on the controller's state, but an exception leaves the loop with
    the updates of [max_temp] made so far: the loop returns the final
    [max_temp] and the exception that ended it, if any. *)
Fixpoint sensors_loop (lines : list string) (max_temp : Z) : Z * option exn :=
  match lines with
  | [] => (max_temp, None)
  | line :: rest =>
      if str_in "Package id" line && str_in DEGREES_C line
      then
        match nth_error (str_split "+" line) 1 with
        | None => (max_temp, Some IndexError)
        | Some after_plus =>
            let temp_str := hd EmptyString (str_split DEGREES_C after_plus) in
            match int_of_float_str temp_str with
            | inr e => (max_temp, Some e)
            | inl temp =>
                sensors_loop rest (if temp >? max_temp then temp else max_temp)
            end
        end
      else sensors_loop rest max_temp
  end.

(** The [try] block of lines 147-160, together with the value of [max_temp]
    after it. *)
Definition sensors_fallback (max_temp : Z) : M Z :=
  attempt <-
    try_except
      (sensors_output <- run_command CMD_SENSORS true ;;
       ret (match sensors_output with
            | Some text =>
                if truthy text
                then sensors_loop (str_split LF text) max_temp
                else (max_temp, None)
            | None => (max_temp, None)
            end))
      (except_Exception (fun e => ret (max_temp, Some e))) ;;
  match attempt with
  | (max_temp', Some e) =>
      logger LvWarning (MsgSensorsFailed e) ;; ret max_temp'
  | (max_temp', None) => ret max_temp'
  end.

(** [Path("/sys/class/thermal").glob("thermal_zone*/temp")] (line 133) *)
Definition glob_thermal_zones : M (list file_outcome) :=
  fun st => (Ok (thermal_zones (w (clock st))), st).

(** [get_cpu_temp] (lines 128-162). *)
Definition get_cpu_temp : M Z :=
  zones <- glob_thermal_zones ;;
  max_temp <- thermal_zone_loop zones 0 ;;
  if max_temp =? 0
  then sensors_fallback max_temp
  else ret max_temp.

(** The [for line in output.split] loop of [get_gpu_data] (lines 177-187). *)
Fixpoint gpu_loop (lines : list string) (max_temp max_util : Z) : M (Z * Z) :=
  match lines with
  | [] => ret (max_temp, max_util)
  | line :: rest =>
      if truthy (str_strip line)
      then
        match str_split "," line with
        | part0 :: part1 :: _ =>
            temp <- py_int (str_strip part0) ;;
            util <- py_int (str_strip part1) ;;
            gpu_loop rest
              (if temp >? max_temp then temp else max_temp)
              (if util >? max_util then util else max_util)
        | _ => gpu_loop rest max_temp max_util
        end
      else gpu_loop rest max_temp max_util
  end.

(** [get_gpu_data] (lines 164-193). *)
Definition get_gpu_data : M (Z * Z) :=
  try_except
    (output <- run_command CMD_NVIDIA_SMI true ;;
     match output with
     | Some text =>
         if truthy text
         then gpu_loop (str_split LF text) 0 0
         else ret (0, 0)
     | None => ret (0, 0)
     end)
    (except_Exception (fun e =>
       logger LvError (MsgGpuFailed e) ;; ret (0, 0))).

(** *** The threshold policy *)

(** [determine_fan_speed] (lines 195-220). *)
Definition determine_fan_speed (gpu_temp cpu_temp gpu_util : Z)
  : M (Z * string) :=
  if (gpu_temp >=? GPU_TEMP_CRITICAL) || (cpu_temp >=? CPU_TEMP_CRITICAL)
  then ret (FAN_MAX, REASON_CRITICAL gpu_temp cpu_temp)
  else if (gpu_temp >=? GPU_TEMP_HIGH) || (cpu_temp >=? CPU_TEMP_HIGH)
  then ret (FAN_HIGH, REASON_HIGH gpu_temp cpu_temp)
  else if (gpu_temp >=? GPU_TEMP_MEDIUM) || (cpu_temp >=? CPU_TEMP_MEDIUM)
          || (gpu_util >=? UTIL_HIGH)
  then ret (FAN_MEDIUM, REASON_MEDIUM)
  else if (gpu_temp <? GPU_TEMP_LOW) && (cpu_temp <? CPU_TEMP_LOW)
          && (gpu_util <? UTIL_LOW)
  then ret (FAN_DEFAULT, REASON_LOW)
  else
    current <- get_current_speed ;;
    ret (current, REASON_MAINTAIN).

(** *** The control loop *)

(** One iteration of the [while True] body (lines 233-249). *)
Definition loop_body : M unit :=
  gpu <- get_gpu_data ;;
  let (gpu_temp, gpu_util) := gpu : Z * Z in
  cpu_temp <- get_cpu_temp ;;
  logger LvInfo (MsgTemperatures gpu_temp cpu_temp gpu_util) ;;
  decision <- determine_fan_speed gpu_temp cpu_temp gpu_util ;;
  let (new_speed, reason) := decision : Z * string in
  current <- get_current_speed ;;
  (if negb (new_speed =? current)
   then set_fan_speed new_speed reason
   else ret tt) ;;
  time_sleep.

(** [while True] observed for [cycles] iterations. *)
Fixpoint while_true (cycles : nat) : M unit :=
  match cycles with
  | O => fun st => (Unfinished, st)
  | S n => loop_body ;; while_true n
  end.

(** The two [except] clauses of [run] (lines 251-255). *)
Definition except_run (r : raised) : option (M unit) :=
  match r with
  | KeyboardInterrupt => Some cleanup
  | Exc e => Some (logger LvError (MsgUnexpected e) ;; cleanup)
  | SystemExit _ => None
  end.

(** [run] (lines 222-255), observed for [cycles] iterations of its loop. *)
Definition run (cycles : nat) : M unit :=
  check_commands ;;
  logger LvInfo MsgStarting ;;
  current <- get_current_speed ;;
  set_fan_speed current "initial setting" ;;
  try_except (while_true cycles) except_run.

End Controller.

(** ** A concrete runtime for examples

    An instance of [PyBuiltins] on ASCII text: [str.strip] over ASCII white
    space, [int] on signed decimal numerals, and [int(float(s))] on signed
    decimal numerals with an optional fraction (exact for numerals of at
    most fifteen significant digits).  It is used to run the model on
    concrete inputs only. *)

Definition is_space (c : ascii) : bool :=
  let n := nat_of_ascii c in
  ((9 <=? n) && (n <=? 13) || (28 <=? n) && (n <=? 32))%nat.

Fixpoint lstrip (s : string) : string :=
  match s with
  | String c rest => if is_space c then lstrip rest else s
  | EmptyString => EmptyString
  end.

Fixpoint rstrip (s : string) : string :=
  match s with
  | EmptyString => EmptyString
  | String c rest =>
      match rstrip rest with
      | EmptyString => if is_space c then EmptyString else String c EmptyString
      | kept => String c kept
      end
  end.

Definition digit_value (c : ascii) : option Z :=
  let n := nat_of_ascii c in
  if ((48 <=? n) && (n <=? 57))%nat then Some (Z.of_nat n - 48) else None.

Fixpoint digits_value (s : string) (acc : Z) : option Z :=
  match s with
  | EmptyString => Some acc
  | String c rest =>
      match digit_value c with
      | Some d => digits_value rest (10 * acc + d)
      | None => None
      end
  end.

Definition numeral_value (s : string) : option Z :=
  if truthy s then digits_value s 0 else None.

Definition signed (body : string -> option Z) (s : string) : option Z :=
  match s with
  | String "-" rest => option_map Z.opp (body rest)
  | String "+" rest => body rest
  | _ => body s
  end.

Definition ascii_int (s : string) : option Z :=
  signed numeral_value (rstrip (lstrip s)).

Definition decimal_value (s : string) : option Z :=
  match str_split "." s with
  | [whole] => numeral_value whole
  | [whole; fraction] =>
      match digits_value fraction 0 with
      | Some _ =>
          if truthy whole then numeral_value whole
          else if truthy fraction then Some 0 else None
      | None => None
      end
  | _ => None
  end.

Definition ascii_int_of_float (s : string) : Z + exn :=
  match signed decimal_value (rstrip (lstrip s)) with
  | Some n => inl n
  | None => inr ValueError
  end.

Definition ascii_builtins : PyBuiltins := {|
  str_strip := fun s => rstrip (lstrip s);
  int_of_str := ascii_int;
  int_of_float_str := ascii_int_of_float
|}.

(** ** Concrete environments *)

(** Every command succeeds silently; there is no thermal zone. *)
Definition quiet_env : environment :=
  mkEnv (fun _ => Completed 0 EmptyString) [].

Definition invocation_eqb (a b : invocation) : bool :=
  match a, b with
  | Shell x, Shell y => String.eqb x y
  | Argv xs, Argv ys =>
      if list_eq_dec string_dec xs ys then true else false
  | _, _ => false
  end.

(** [override inv outcome env]: [env], except that [inv] does [outcome]. *)
Definition override (inv : invocation) (outcome : proc_outcome)
  (env : environment) : environment :=
  mkEnv (fun i => if invocation_eqb i inv then outcome else proc env i)
        (thermal_zones env).

Definition with_zones (zones : list file_outcome) (env : environment)
  : environment :=
  mkEnv (proc env) zones.

(** An environment that never changes. *)
Definition always (env : environment) : world := fun _ => env.

(** A critically hot GPU whose BMC rejects the duty-cycle command for
    [FAN_MAX] with exit status 1. *)
Definition bmc_rejects_max : environment :=
  override (Shell (CMD_SPEED FAN_MAX)) (Completed 1 EmptyString)
    (override (Shell CMD_NVIDIA_SMI) (Completed 0 "85, 10")
       (with_zones [FileText "40000"] quiet_env)).

(** One thermal zone reads 45 degrees; reading the other fails with an I/O
    error ([OSError] with [EIO] or [ENODATA]). *)
Definition zone_io_error : environment :=
  with_zones [FileText "45000"; FileRaises OSError] quiet_env.

(** One zone is missing, another holds garbage, the third reads 45.9
    degrees; [nvidia-smi] is not on the path (exit status 127). *)
Definition degraded_sensors : environment :=
  override (Shell CMD_NVIDIA_SMI) (Completed 127 EmptyString)
    (with_zones [FileRaises FileNotFoundError; FileText "n/a";
                 FileText "45900"] quiet_env).

(** Two thermal zones read -5 and 0 degrees while [sensors] reports a
    package at 45 degrees. *)
Definition cold_zones : environment :=
  override (Shell CMD_SENSORS)
    (Completed 0 "Package id 0:  +45.0°C  (high = +80.0°C, crit = +100.0°C)")
    (with_zones [FileText "-5000"; FileText "0"] quiet_env).

(** Two GPUs, the second one below zero, and a lone zone below zero. *)
Definition below_zero : environment :=
  override (Shell CMD_NVIDIA_SMI)
    (Completed 0 ("40, 15" ++ LF ++ "-3, 0"))
    (with_zones [FileText "-12000"] quiet_env).

(** The telemetry (gpu=55, cpu=30, util=20) of the hysteresis band. *)
Definition dead_zone_env : environment :=
  override (Shell CMD_NVIDIA_SMI) (Completed 0 "55, 20")
    (with_zones [FileText "30000"] quiet_env).

(** Two GPUs, the second of which does not report its utilization. *)
Definition one_gpu_unsupported : environment :=
  override (Shell CMD_NVIDIA_SMI)
    (Completed 0 ("85, 90" ++ LF ++ "41, [N/A]"))
    quiet_env.

(** ** Vocabulary of the statements

    The definitions below are not part of the program: they name what the
    properties talk about. *)

(** A command sent to the BMC, as opposed to a sensor query. *)
Definition is_actuator (inv : invocation) : bool :=
  match inv with
  | Shell command => prefix "ipmitool" command
  | Argv _ => false
  end.

Definition actuator_calls (st : state) : list invocation :=
  filter is_actuator (calls st).

(** The exceptions that line 142 catches. *)
Definition zone_error_caught (e : exn) : bool :=
  match e with
  | FileNotFoundError | ValueError | PermissionError => true
  | _ => false
  end.

(** The maximum of [base] and the elements of [l]. *)
Definition max_of (base : Z) (l : list Z) : Z := fold_right Z.max base l.

Section Readings.

Context {builtins : PyBuiltins}.

(** The whole-degree reading of a thermal zone, if the file can be read and
    holds an integer. *)
Definition zone_celsius (zone : file_outcome) : option Z :=
  match zone with
  | FileText text =>
      option_map (fun millidegrees => millidegrees / 1000)
                 (int_of_str (str_strip text))
  | FileRaises _ => None
  end.

(** The readings of the zones that are readable. *)
Definition zone_readings (zones : list file_outcome) : list Z :=
  flat_map (fun zone => match zone_celsius zone with
                        | Some c => [c]
                        | None => []
                        end) zones.

(** What a zone contributes to the maximum: its reading, or 0. *)
Definition zone_contribution (zone : file_outcome) : Z :=
  match zone_celsius zone with
  | Some c => c
  | None => 0
  end.

(** What lines 153-156 of [get_cpu_temp] extract from a line of the
    [sensors] output: for a line that holds [Package id] and the degree
    marker, the conversion of the text between the first [+] of the line
    and the degree marker that follows it, or the exception that this
    raises; [None] for a line that the fallback skips.  This is the body
    of [sensors_loop] for one line, not the temperature that the line
    reports, which is [reading] below: the two differ on a line whose
    reading carries no [+]. *)
Definition extracted_temp (line : string) : option (Z + exn) :=
  if str_in "Package id" line && str_in DEGREES_C line
  then Some match nth_error (str_split "+" line) 1 with
            | None => inr IndexError
            | Some after_plus =>
                int_of_float_str
                  (hd EmptyString (str_split DEGREES_C after_plus))
            end
  else None.

(** The values extracted from the lines, in order. *)
Definition extracted_temps (lines : list string) : list Z :=
  flat_map (fun line => match extracted_temp line with
                        | Some (inl temp) => [temp]
                        | _ => []
                        end) lines.

(** No line makes the extraction raise. *)
Definition extraction_succeeds (lines : list string) : Prop :=
  forall line e, In line lines -> extracted_temp line <> Some (inr e).

End Readings.

(** ** The process and its termination signals

    [__init__] installs [cleanup] as the handler of SIGINT and SIGTERM
    (lines 46-47).  The interpreter runs a handler on top of whatever the
    main thread is doing, also on top of a handler that is already running.
    [cleanup] ends in [sys.exit(0)], and no [except] clause of the program
    catches [SystemExit]: once a handler has started, the code it
    interrupted is never resumed.  The process is therefore described by
    the place where control is, the controller's state, and the number of
    times [restore_auto_fan] has been entered.  A signal is taken to arrive
    between two steps of this description: the step it pre-empts has not
    begun. *)

Inductive signum : Type := SIGINT | SIGTERM.

Inductive phase : Type :=
| Starting            (* [run], lines 224-229, before the [try] *)
| Running             (* inside the [try], lines 232-249 *)
| CleanupLogging      (* [cleanup] entered, about to run line 124 *)
| CleanupRestoring    (* [restore_auto_fan] entered from line 125 *)
| CleanupExiting      (* [restore_auto_fan] has returned, at line 126 *)
| Stopped (code : Z). (* the process has exited with this status *)

Record process : Type := mkProcess {
  where_ : phase;
  ctl : state;
  (** how many times [restore_auto_fan] has been entered *)
  restores : nat
}.

(** What happens next: the code at the current place runs, or a signal is
    delivered before it does. *)
Inductive event : Type :=
| Advance
| Deliver (s : signum).


Section Process.

Context {builtins : PyBuiltins}.
Variable w : world.

Definition advance (p : process) : process :=
  match where_ p with
  | Starting =>
      (* [run] up to the first iteration; an exception here is not caught
         by anything and ends the interpreter with status 1 *)
      match run w 0 (ctl p) with
      | (Unfinished, st) => mkProcess Running st (restores p)
      | (Raise (SystemExit code), st) => mkProcess (Stopped code) st (restores p)
      | (_, st) => mkProcess (Stopped 1) st (restores p)
      end
  | Running =>
      (* one iteration, then the [except] clauses of lines 251-255 up to
         their call of [cleanup] *)
      match loop_body w (ctl p) with
      | (Raise (Exc e), st) =>
          mkProcess CleanupLogging (add_log LvError (MsgUnexpected e) st)
                    (restores p)
      | (Raise KeyboardInterrupt, st) =>
          mkProcess CleanupLogging st (restores p)
      | (Raise (SystemExit code), st) =>
          mkProcess (Stopped code) st (restores p)
      | (_, st) => mkProcess Running st (restores p)
      end
  | CleanupLogging =>
      (* line 124, then the call on line 125 *)
      mkProcess CleanupRestoring
                (snd (logger LvInfo MsgCaughtSignal (ctl p)))
                (S (restores p))
  | CleanupRestoring =>
      (* the body of [restore_auto_fan] *)
      match restore_auto_fan w (ctl p) with
      | (Raise (SystemExit code), st) => mkProcess (Stopped code) st (restores p)
      | (Raise _, st) => mkProcess (Stopped 1) st (restores p)
      | (_, st) => mkProcess CleanupExiting st (restores p)
      end
  | CleanupExiting =>
      (* line 126 *)
      mkProcess (Stopped 0) (ctl p) (restores p)
  | Stopped _ => p
  end.

(** A delivered signal starts [cleanup] afresh, wherever control is. *)
Definition deliver (p : process) : process :=
  match where_ p with
  | Stopped _ => p
  | _ => mkProcess CleanupLogging (ctl p) (restores p)
  end.

Definition step (p : process) (ev : event) : process :=
  match ev with
  | Advance => advance p
  | Deliver _ => deliver p
  end.

Definition exec (p : process) (evs : list event) : process :=
  fold_left step evs p.



End Process.

(** ** Vocabulary of the proofs *)

(** A computation is [benign] when it returns or raises an [Exception]: it
    neither exits the process nor runs out of observed cycles. *)
Definition benign_result {A} (r : result A) : Prop :=
  match r with
  | Ok _ | Raise (Exc _) => True
  | _ => False
  end.

Definition benign {A} (m : M A) : Prop := forall st, benign_result (fst (m st)).

(** What a sensor query may change: log records and non-actuator calls. *)
Definition sensor_frame (st st' : state) : Prop :=
  current_speed st' = current_speed st /\
  clock st' = clock st /\
  actuator_calls st' = actuator_calls st.

(** The results of [check_commands]: it returns, exits with status 1, or
    lets an exception of [which] through. *)
Definition startup_result {A} (r : result A) : Prop :=
  match r with
  | Ok _ | Raise (Exc _) => True
  | Raise (SystemExit code) => code = 1
  | Raise KeyboardInterrupt | Unfinished => False
  end.



(** ** Vocabulary of the further properties *)

(** A computation [preserves] an invariant of the controller's state when
    the invariant holds after it, whatever its result. *)
Definition preserves {A} (Inv : state -> Prop) (m : M A) : Prop :=
  forall st, Inv st -> Inv (snd (m st)).

(** The tracked level is one of the four configured levels. *)
Definition level_ok (st : state) : Prop := In (current_speed st) fan_levels.

(** The record of calls starts with [base]. *)
Definition calls_extend (base : list invocation) (st : state) : Prop :=
  exists rest, calls st = base ++ rest.

(** An invariant is [stable] when logging, spawning a command and sleeping
    keep it. *)
Definition stable (Inv : state -> Prop) : Prop :=
  (forall lv msg st, Inv st -> Inv (add_log lv msg st)) /\
  (forall inv st, Inv st -> Inv (add_call inv st)) /\
  (forall st, Inv st -> Inv (tick st)).

(** Storing the level [v] keeps the invariant. *)
Definition admits (Inv : state -> Prop) (v : Z) : Prop :=
  forall st, Inv st -> Inv (with_speed v st).

(** The duty cycles that fit in one byte. *)
Definition byte_values : list Z := map Z.of_nat (seq 0 256).

(** The telemetry is read in every cycle from the one [st] is in up to
    [cycles] later, and the policy then decides for the level [st] is at. *)
Definition settled {builtins : PyBuiltins} (w : world) (st : state)
  (cycles : nat) : Prop :=
  forall s,
    (clock st <= clock s < clock st + cycles)%nat ->
    current_speed s = current_speed st ->
    exists gpu_temp gpu_util cpu_temp s1 s2 reason,
      get_gpu_data w s = (Ok (gpu_temp, gpu_util), s1) /\
      get_cpu_temp w s1 = (Ok cpu_temp, s2) /\
      fst (determine_fan_speed gpu_temp cpu_temp gpu_util s)
      = Ok (current_speed st, reason).

(** The two probes of [check_commands]. *)
Definition WHICH (cmd : string) : invocation := Argv ["which"; cmd].

Section Rows.

Context {builtins : PyBuiltins}.

(** What a line of the [nvidia-smi] output holds: nothing (a blank line or
    one without a comma), a row that does not parse, or a temperature and
    a utilization. *)
Definition gpu_row (line : string) : option (option (Z * Z)) :=
  if truthy (str_strip line)
  then match str_split "," line with
       | part0 :: part1 :: _ =>
           Some match int_of_str (str_strip part0),
                      int_of_str (str_strip part1) with
                | Some temp, Some util => Some (temp, util)
                | _, _ => None
                end
       | _ => None
       end
  else None.

Definition gpu_rows (lines : list string) : list (Z * Z) :=
  flat_map (fun line => match gpu_row line with
                        | Some (Some row) => [row]
                        | _ => []
                        end) lines.

Definition gpu_rows_parse (lines : list string) : Prop :=
  forall line, In line lines -> gpu_row line <> Some None.

End Rows.

(** A machine without a GPU driver answer and without any CPU reading:
    [nvidia-smi] and [sensors] exit with status 1 and no thermal zone
    exists; the controller is at [FAN_MAX]. *)
Definition sensor_blackout : environment :=
  override (Shell CMD_NVIDIA_SMI) (Completed 1 EmptyString)
    (override (Shell CMD_SENSORS) (Completed 1 EmptyString) quiet_env).

(** [ipmitool] cannot be spawned at all. *)
Definition no_shell : environment :=
  override (Shell CMD_MANUAL) (SpawnRaises OSError) quiet_env.

(** [which nvidia-smi] finds nothing. *)
Definition nvidia_smi_missing : environment :=
  override (Argv ["which"; "nvidia-smi"]) (Completed 1 EmptyString) quiet_env.

(** Three GPUs, a blank line and a line without a comma. *)
Definition three_gpus : environment :=
  override (Shell CMD_NVIDIA_SMI)
    (Completed 0 ("61, 35" ++ LF ++ LF ++ "74, 12, 9" ++ LF ++ "n/a" ++ LF
                  ++ " 58 , 97"))
    quiet_env.

(** [sensors] reports two packages, then one without a reading, then a
    fourth one. *)
Definition sensors_with_gap : string :=
  "Package id 0:  +45.0°C" ++ LF ++ "Package id 1:  +52.0°C" ++ LF
    ++ "Package id 2:  N/A°C" ++ LF ++ "Package id 3:  +90.0°C".

Definition package_without_reading : environment :=
  override (Shell CMD_SENSORS) (Completed 0 sensors_with_gap) quiet_env.

(** A GPU at 85 degrees, a CPU at 40. *)
Definition critical_env : environment :=
  override (Shell CMD_NVIDIA_SMI) (Completed 0 "85, 10")
    (with_zones [FileText "40000"] quiet_env).

(** ** The [sensors] output as the specification reads it

    A per-package temperature line names its package and gives a signed
    decimal value followed by the degree marker, the first such value of
    the line; limits may follow.  The properties speak of lines whose
    reading is positive, written with a [+] sign: these are the lines on
    which the text that the fallback of [get_cpu_temp] picks, between the
    first [+] of the line and the degree marker after it, is the
    reading. *)

(** A character of an unsigned decimal numeral: a digit or the point. *)
Definition is_decimal_char (c : ascii) : bool :=
  let n := nat_of_ascii c in
  ((48 <=? n) && (n <=? 57) || (n =? 46))%nat.

Fixpoint all_chars (P : ascii -> bool) (s : string) : bool :=
  match s with
  | EmptyString => true
  | String c rest => P c && all_chars P rest
  end.

Inductive sensors_line : Type :=
| PackageLine (label digits trailer : string)
    (* [label], the reading [+digits], the degree marker, [trailer] *)
| OtherLine (text : string).

(** The text of a line. *)
Definition render (l : sensors_line) : string :=
  match l with
  | PackageLine label digits trailer =>
      label ++ "+" ++ digits ++ DEGREES_C ++ trailer
  | OtherLine text => text
  end.

(** A package line names its package before its reading, which is the
    first signed and the first degree-marked value of the line and is made
    of decimal characters; any other line lacks the package name or the
    degree marker. *)
Definition well_formed (l : sensors_line) : bool :=
  match l with
  | PackageLine label digits trailer =>
      str_in "Package id" label
      && negb (str_in "+" label)
      && negb (str_in DEGREES_C label)
      && all_chars is_decimal_char digits
  | OtherLine text => negb (str_in "Package id" text && str_in DEGREES_C text)
  end.

Section LineReadings.

Context {builtins : PyBuiltins}.

(** The temperature a line reports, or the exception that converting its
    reading raises; the value of the positive reading [+digits] is
    [int(float(digits))]. *)
Definition reading (l : sensors_line) : option (Z + exn) :=
  match l with
  | PackageLine _ digits _ => Some (int_of_float_str digits)
  | OtherLine _ => None
  end.

(** The temperatures of the package lines. *)
Definition readings (ls : list sensors_line) : list Z :=
  flat_map (fun l => match reading l with
                     | Some (inl temp) => [temp]
                     | _ => []
                     end) ls.

(** Every line is well formed and every reading converts. *)
Definition lines_read (ls : list sensors_line) : Prop :=
  forall l, In l ls ->
            well_formed l = true /\ forall e, reading l <> Some (inr e).

(** A line on which the fallback raises [e]: a package line with a degree
    marker but without any [+] (a reading that is absent or not positive,
    and no positive limit) has no second piece, [IndexError]; and a
    well-formed package line whose reading does not convert. *)
Definition unreadable (line : string) (e : exn) : Prop :=
  (str_in "Package id" line = true /\ str_in DEGREES_C line = true /\
   str_in "+" line = false /\ e = IndexError)
  \/ exists label digits trailer,
       line = render (PackageLine label digits trailer) /\
       well_formed (PackageLine label digits trailer) = true /\
       int_of_float_str digits = inr e.

End LineReadings.

(** Thermal zones at -12 degrees, one of which cannot be read for an I/O
    error. *)
Definition cold_zone_io_error : environment :=
  with_zones [FileText "-12000"; FileRaises OSError] quiet_env.

(** No thermal zone above 0 degrees and a package at -5 degrees whose
    line goes on with its limits. *)
Definition package_below_zero : environment :=
  override (Shell CMD_SENSORS)
    (Completed 0 "Package id 0:  -5.0°C  (high = +80.0°C, crit = +100.0°C)")
    quiet_env.

(** The lines of [sensors_with_gap] before the one without a reading. *)
Definition packages_before_gap : list sensors_line :=
  [PackageLine "Package id 0:  " "45.0" EmptyString;
   PackageLine "Package id 1:  " "52.0" EmptyString].

(** The line that [cold_zones] gets from [sensors]. *)
Definition package_at_45 : sensors_line :=
  PackageLine "Package id 0:  " "45.0"
    "  (high = +80.0°C, crit = +100.0°C)".

(** ** Sanity checks of the string model *)

Example split_csv_row : str_split "," "85, 10" = ["85"; " 10"].
Proof. reflexivity. Qed.

Example split_lines :
  str_split LF ("85, 10" ++ LF ++ "70, 95") = ["85, 10"; "70, 95"].
Proof. reflexivity. Qed.

Example split_package_line :
  nth_error
    (str_split "+" "Package id 0:  +45.0°C  (high = +80.0°C, crit = +100.0°C)")
    1
  = Some "45.0°C  (high = ".
Proof. reflexivity. Qed.

Example split_degrees : str_split DEGREES_C "45.0°C  (high = " = ["45.0"; "  (high = "].
Proof. reflexivity. Qed.

Example format_hex04_levels :
  map format_hex04 (fan_levels ++ [5; 256; -5])
  = ["0x20"; "0x32"; "0x48"; "0x64"; "0x05"; "0x100"; "-0x5"]%string.
Proof. reflexivity. Qed.

Example ascii_int_examples :
  map ascii_int ["45000"; " -5000 "; "4x"; ""]%string
  = [Some 45000; Some (-5000); None; None].
Proof. reflexivity. Qed.

Example ascii_float_examples :
  map ascii_int_of_float ["45.0"; "-3.7"; "N/A"]%string
  = [inl 45; inl (-3); inr ValueError].
Proof. reflexivity. Qed.

(** ** The duty-cycle table *)

(** C8: the duty cycles of the four fan levels are strictly increasing,
    DEFAULT < MEDIUM < HIGH < MAX. *)
Theorem duty_cycle_strictly_increasing :
  FAN_DEFAULT < FAN_MEDIUM /\ FAN_MEDIUM < FAN_HIGH /\ FAN_HIGH < FAN_MAX.
Proof. unfold FAN_DEFAULT, FAN_MEDIUM, FAN_HIGH, FAN_MAX. lia. Qed.

(** ** The threshold policy *)

Ltac policy_thresholds :=
  unfold GPU_TEMP_LOW, GPU_TEMP_MEDIUM, GPU_TEMP_HIGH, GPU_TEMP_CRITICAL,
         CPU_TEMP_LOW, CPU_TEMP_MEDIUM, CPU_TEMP_HIGH, CPU_TEMP_CRITICAL,
         UTIL_LOW, UTIL_HIGH in *.

Lemma geb_false a b : a < b -> (a >=? b) = false.
Proof. intros H. rewrite Z.geb_leb. apply Z.leb_gt. exact H. Qed.

Lemma geb_true a b : a >= b -> (a >=? b) = true.
Proof. intros H. apply Z.geb_le. lia. Qed.

(** [determine_fan_speed] never raises and never changes the state. *)
Lemma determine_fan_speed_pure gpu_temp cpu_temp gpu_util st :
  exists decision,
    determine_fan_speed gpu_temp cpu_temp gpu_util st = (Ok decision, st).
Proof.
  unfold determine_fan_speed.
  repeat match goal with
         | |- context [if ?b then _ else _] => destruct b
         end;
    eexists; reflexivity.
Qed.

(** The decision depends on the state through [current_speed] only. *)
Lemma determine_fan_speed_current gpu_temp cpu_temp gpu_util st st' :
  current_speed st = current_speed st' ->
  fst (determine_fan_speed gpu_temp cpu_temp gpu_util st)
  = fst (determine_fan_speed gpu_temp cpu_temp gpu_util st').
Proof.
  intros Hcur. unfold determine_fan_speed.
  repeat match goal with
         | |- context [if ?b then _ else _] => destruct b
         end;
    try reflexivity.
  unfold bind, get_current_speed, ret. simpl. now rewrite Hcur.
Qed.

(** C3: when the GPU is at or above 80 degrees or the CPU at or above 75,
    the decision is [FAN_MAX], whatever the current level. *)
Theorem critical_temperature_gives_max gpu_temp cpu_temp gpu_util st :
  gpu_temp >= GPU_TEMP_CRITICAL \/ cpu_temp >= CPU_TEMP_CRITICAL ->
  GPU_TEMP_CRITICAL = 80 /\ CPU_TEMP_CRITICAL = 75 /\
  determine_fan_speed gpu_temp cpu_temp gpu_util st
  = (Ok (FAN_MAX, REASON_CRITICAL gpu_temp cpu_temp), st).
Proof.
  intros Hcrit. repeat split.
  unfold determine_fan_speed.
  replace ((gpu_temp >=? GPU_TEMP_CRITICAL) || (cpu_temp >=? CPU_TEMP_CRITICAL))
    with true; [reflexivity|].
  symmetry. apply orb_true_iff.
  destruct Hcrit; [left | right]; apply geb_true; lia.
Qed.

(** Scenario 1 of the specification: (gpu=85, cpu=40, util=10) at DEFAULT. *)
Lemma critical_temperature_gives_max_witness :
  (85 >= GPU_TEMP_CRITICAL \/ 40 >= CPU_TEMP_CRITICAL) /\
  determine_fan_speed 85 40 10 initial_state
  = (Ok (FAN_MAX, "CRITICAL temperature (GPU: 85°C, CPU: 40°C)"%string),
     initial_state).
Proof.
  split.
  - left. policy_thresholds. lia.
  - apply (critical_temperature_gives_max 85 40 10 initial_state).
    left. policy_thresholds. lia.
Defined.

(** C4: in the hysteresis dead zone (no rule among critical, high,
    medium-or-busy and quiet matches) the decision is the current level,
    with the reason "maintaining current level". *)
Theorem dead_zone_maintains_level gpu_temp cpu_temp gpu_util st :
  ~ (gpu_temp >= GPU_TEMP_CRITICAL \/ cpu_temp >= CPU_TEMP_CRITICAL) ->
  ~ (gpu_temp >= GPU_TEMP_HIGH \/ cpu_temp >= CPU_TEMP_HIGH) ->
  ~ (gpu_temp >= GPU_TEMP_MEDIUM \/ cpu_temp >= CPU_TEMP_MEDIUM
     \/ gpu_util >= UTIL_HIGH) ->
  ~ (gpu_temp < GPU_TEMP_LOW /\ cpu_temp < CPU_TEMP_LOW
     /\ gpu_util < UTIL_LOW) ->
  determine_fan_speed gpu_temp cpu_temp gpu_util st
  = (Ok (current_speed st, "maintaining current level"%string), st).
Proof.
  intros H1 H2 H3 H4. unfold determine_fan_speed.
  replace ((gpu_temp >=? GPU_TEMP_CRITICAL) || (cpu_temp >=? CPU_TEMP_CRITICAL))
    with false
    by (symmetry; apply orb_false_iff; split; apply geb_false; lia).
  replace ((gpu_temp >=? GPU_TEMP_HIGH) || (cpu_temp >=? CPU_TEMP_HIGH))
    with false
    by (symmetry; apply orb_false_iff; split; apply geb_false; lia).
  replace ((gpu_temp >=? GPU_TEMP_MEDIUM) || (cpu_temp >=? CPU_TEMP_MEDIUM)
           || (gpu_util >=? UTIL_HIGH))
    with false
    by (symmetry; rewrite !orb_false_iff; repeat split; apply geb_false; lia).
  replace ((gpu_temp <? GPU_TEMP_LOW) && (cpu_temp <? CPU_TEMP_LOW)
           && (gpu_util <? UTIL_LOW))
    with false; [reflexivity|].
  symmetry. apply not_true_is_false. intros Hq.
  apply H4. rewrite !andb_true_iff in Hq.
  destruct Hq as [[Hg Hc] Hu].
  apply Z.ltb_lt in Hg, Hc, Hu. lia.
Qed.

(** Scenario 2 of the specification: (gpu=55, cpu=30, util=20) at HIGH. *)
Lemma dead_zone_maintains_level_witness :
  determine_fan_speed 55 30 20 (with_speed FAN_HIGH initial_state)
  = (Ok (FAN_HIGH, "maintaining current level"%string),
     with_speed FAN_HIGH initial_state).
Proof.
  apply (dead_zone_maintains_level 55 30 20 (with_speed FAN_HIGH initial_state));
    policy_thresholds; lia.
Defined.

(** Scenarios 3 and 4 of the specification. *)
Example scenario_quiet :
  fst (determine_fan_speed 40 25 5 (with_speed FAN_MEDIUM initial_state))
  = Ok (FAN_DEFAULT, "LOW temperatures and utilization"%string).
Proof. reflexivity. Qed.

Example scenario_medium :
  fst (determine_fan_speed 65 30 10 initial_state)
  = Ok (FAN_MEDIUM, "MEDIUM temperature or HIGH utilization"%string).
Proof. reflexivity. Qed.

(** ** Running commands *)

Section CommandFacts.

Context {builtins : PyBuiltins}.
Variable w : world.

(** The three ways a call of [run_command] can go. *)
Lemma run_command_succeeds command capture_output st stdout :
  proc (w (clock st)) (Shell command) = Completed 0 stdout ->
  run_command w command capture_output st
  = (Ok (if capture_output then Some (str_strip stdout) else None),
     add_call (Shell command) st).
Proof.
  intros Hproc. unfold run_command, try_except, bind, subprocess_run.
  rewrite Hproc. reflexivity.
Qed.

Lemma run_command_fails command capture_output st returncode stdout :
  proc (w (clock st)) (Shell command) = Completed returncode stdout ->
  returncode <> 0 ->
  run_command w command capture_output st
  = (Ok None,
     add_log LvError (MsgError (CalledProcessError returncode (Shell command)))
       (add_log LvError (MsgCommandFailed (Shell command))
          (add_call (Shell command) st))).
Proof.
  intros Hproc Hrc. unfold run_command, try_except, bind, subprocess_run.
  rewrite Hproc. apply Z.eqb_neq in Hrc. rewrite Hrc. reflexivity.
Qed.

Lemma run_command_spawn_raises command capture_output st e :
  proc (w (clock st)) (Shell command) = SpawnRaises e ->
  (forall rc cmd, e <> CalledProcessError rc cmd) ->
  run_command w command capture_output st
  = (Raise (Exc e), add_call (Shell command) st).
Proof.
  intros Hproc Hne. unfold run_command, try_except, bind, subprocess_run.
  rewrite Hproc. destruct e; try reflexivity.
  exfalso. eapply Hne. reflexivity.
Qed.

(** Whatever the environment does, [run_command] returns a value or raises
    an [Exception]; it records exactly its own command, and touches neither
    [current_speed] nor the clock. *)
Lemma run_command_cases command capture_output st :
  exists r st',
    run_command w command capture_output st = (r, st') /\
    (match r with Ok _ | Raise (Exc _) => True | _ => False end) /\
    calls st' = calls st ++ [Shell command] /\
    current_speed st' = current_speed st /\
    clock st' = clock st.
Proof.
  unfold run_command, try_except, bind, subprocess_run.
  destruct (proc (w (clock st)) (Shell command)) as [rc out | e].
  - destruct (rc =? 0); do 2 eexists; repeat split.
  - destruct e; simpl; do 2 eexists; repeat split.
Qed.

(** C10: a command that exits with a non-zero status makes [run_command]
    log the failure and return [None] instead of raising; a command that
    exits with status 0 yields its stripped standard output when
    [capture_output] is set. *)
Theorem run_command_never_propagates_exit_status
  command capture_output st returncode stdout :
  proc (w (clock st)) (Shell command) = Completed returncode stdout ->
  (returncode <> 0 ->
   run_command w command capture_output st
   = (Ok None,
      add_log LvError
        (MsgError (CalledProcessError returncode (Shell command)))
        (add_log LvError (MsgCommandFailed (Shell command))
           (add_call (Shell command) st))))
  /\
  (returncode = 0 ->
   run_command w command capture_output st
   = (Ok (if capture_output then Some (str_strip stdout) else None),
      add_call (Shell command) st)).
Proof.
  intros Hproc. split.
  - intros Hrc. eapply run_command_fails; eassumption.
  - intros ->. apply run_command_succeeds. exact Hproc.
Qed.

(** *** Committing a fan level *)

(** When both IPMI commands run to completion, with whatever exit status,
    and the percentage can be computed, [set_fan_speed] records the new
    level. *)
Lemma set_fan_speed_completed speed_hex reason st rc1 out1 rc2 out2 :
  proc (w (clock st)) (Shell CMD_MANUAL) = Completed rc1 out1 ->
  proc (w (clock st)) (Shell (CMD_SPEED speed_hex)) = Completed rc2 out2 ->
  true_divide_overflows speed_hex 0x64 = false ->
  fst (set_fan_speed w speed_hex reason st) = Ok tt /\
  current_speed (snd (set_fan_speed w speed_hex reason st)) = speed_hex.
Proof.
  intros H1 H2 Hfits.
  unfold set_fan_speed, try_except, bind, percentage. rewrite Hfits.
  destruct (Z.eq_dec rc1 0) as [-> | Hrc1].
  - rewrite (run_command_succeeds _ _ _ _ H1).
    destruct (Z.eq_dec rc2 0) as [-> | Hrc2].
    + rewrite (run_command_succeeds _ false (add_call _ st) out2) by exact H2.
      split; reflexivity.
    + rewrite (run_command_fails _ false (add_call _ st) rc2 out2)
        by (exact H2 || exact Hrc2).
      split; reflexivity.
  - rewrite (run_command_fails _ _ _ _ _ H1 Hrc1).
    destruct (Z.eq_dec rc2 0) as [-> | Hrc2].
    + rewrite (run_command_succeeds _ false (add_log _ _ _) out2)
        by exact H2.
      split; reflexivity.
    + rewrite (run_command_fails _ false (add_log _ _ _) rc2 out2)
        by (exact H2 || exact Hrc2).
      split; reflexivity.
Qed.

End CommandFacts.

Lemma run_command_never_propagates_exit_status_witness :
  run_command (builtins := ascii_builtins) (always bmc_rejects_max)
    (CMD_SPEED FAN_MAX) false initial_state
  = (Ok None,
     mkState FAN_DEFAULT 0
       [(LvError, MsgCommandFailed (Shell (CMD_SPEED FAN_MAX)));
        (LvError,
         MsgError (CalledProcessError 1 (Shell (CMD_SPEED FAN_MAX))))]
       [Shell (CMD_SPEED FAN_MAX)]).
Proof.
  apply (run_command_never_propagates_exit_status
           (builtins := ascii_builtins) (always bmc_rejects_max)
           (CMD_SPEED FAN_MAX) false initial_state 1 EmptyString).
  - reflexivity.
  - lia.
Defined.

(** C1, evaluated on the code: the BMC rejects the duty-cycle command for
    [FAN_MAX] (exit status 1) while the controller is at [FAN_DEFAULT].
    [run_command] logs the failure and returns, so [set_fan_speed] goes on
    to log the change and to store [FAN_MAX] in [current_speed]. *)
Theorem set_fan_speed_advances_on_rejected_command :
  set_fan_speed (builtins := ascii_builtins) (always bmc_rejects_max)
    FAN_MAX "CRITICAL" initial_state
  = (Ok tt,
     mkState FAN_MAX 0
       [(LvError, MsgCommandFailed (Shell (CMD_SPEED FAN_MAX)));
        (LvError,
         MsgError (CalledProcessError 1 (Shell (CMD_SPEED FAN_MAX))));
        (LvInfo, MsgFanSpeedSet FAN_MAX "CRITICAL")]
       [Shell CMD_MANUAL; Shell (CMD_SPEED FAN_MAX)]).
Proof. vm_compute. reflexivity. Qed.

(** The following cycles see the same critical telemetry, find the decision
    equal to [current_speed], and send nothing to the BMC: over two cycles
    the rejected command is issued once. *)
Example rejected_command_is_not_retried :
  let st := snd (run (builtins := ascii_builtins) (always bmc_rejects_max)
                   2 initial_state) in
  current_speed st = FAN_MAX /\
  calls st =
    [Argv ["which"; "ipmitool"]; Argv ["which"; "nvidia-smi"];
     Shell CMD_MANUAL; Shell (CMD_SPEED FAN_DEFAULT);
     Shell CMD_NVIDIA_SMI; Shell CMD_MANUAL; Shell (CMD_SPEED FAN_MAX);
     Shell CMD_NVIDIA_SMI]%string.
Proof. vm_compute. split; reflexivity. Qed.

(** ** Reasoning about the monad *)

Lemma benign_ret {A} (a : A) : benign (ret a).
Proof. intros st. exact I. Qed.

Lemma benign_logger lv msg : benign (logger lv msg).
Proof. intros st. exact I. Qed.

Lemma benign_bind {A B} (m : M A) (k : A -> M B) :
  benign m -> (forall a, benign (k a)) -> benign (bind m k).
Proof.
  intros Hm Hk st. unfold bind. specialize (Hm st).
  destruct (m st) as [[a | r | ] st']; simpl in *.
  - apply Hk.
  - exact Hm.
  - exact Hm.
Qed.

(** ** The sensor readers *)

Lemma max_of_base m c l : max_of (Z.max m c) l = Z.max c (max_of m l).
Proof.
  induction l as [ | a l IH]; simpl.
  - apply Z.max_comm.
  - rewrite IH. lia.
Qed.

Lemma max_of_ge m l : m <= max_of m l.
Proof. induction l as [ | a l IH]; simpl; lia. Qed.

Lemma gtb_max c m : (if c >? m then c else m) = Z.max m c.
Proof.
  rewrite Z.gtb_ltb. destruct (m <? c) eqn:H.
  - apply Z.ltb_lt in H. lia.
  - apply Z.ltb_ge in H. lia.
Qed.

Section SensorFacts.

Context {builtins : PyBuiltins}.
Variable w : world.

(** *** The thermal zones *)

(** The zone loop leaves the state alone.  It returns the maximum of its
    starting value and the readings, unless a zone raises an exception that
    line 142 does not catch, which then leaves the loop. *)
Lemma thermal_zone_loop_cases zones : forall max_temp st,
  thermal_zone_loop zones max_temp st
  = (Ok (max_of max_temp (zone_readings zones)), st)
  \/ exists e,
       In (FileRaises e) zones /\ zone_error_caught e = false /\
       thermal_zone_loop zones max_temp st = (Raise (Exc e), st).
Proof.
  induction zones as [ | zone rest IH]; intros max_temp st.
  - left. reflexivity.
  - cbn [thermal_zone_loop]. unfold bind at 1. unfold try_except.
    destruct zone as [text | e].
    + unfold bind, open_read, ret, py_int.
      cbn [zone_readings flat_map zone_celsius].
      destruct (int_of_str (str_strip text)) as [n | ]; cbn.
      * rewrite gtb_max.
        destruct (IH (Z.max max_temp (n / 1000)) st) as [Hok | (e & Hin & Hun & Hraise)].
        -- left. rewrite Hok. f_equal. f_equal. apply max_of_base.
        -- right. exists e. repeat split; [right; exact Hin | exact Hun | exact Hraise].
      * destruct (IH max_temp st) as [Hok | (e & Hin & Hun & Hraise)].
        -- left. exact Hok.
        -- right. exists e. repeat split; [right; exact Hin | exact Hun | exact Hraise].
    + unfold bind, open_read, raise. cbn [zone_readings flat_map zone_celsius app].
      destruct (zone_error_caught e) eqn:Hcaught.
      * assert (Hhandled : except_zone_errors (ret max_temp) (Exc e)
                           = Some (ret max_temp))
          by (destruct e; try discriminate; reflexivity).
        rewrite Hhandled. cbn.
        destruct (IH max_temp st) as [Hok | (e' & Hin & Hun & Hraise)].
        -- left. exact Hok.
        -- right. exists e'. repeat split; [right; exact Hin | exact Hun | exact Hraise].
      * assert (Hmissed : except_zone_errors (ret max_temp) (Exc e) = None)
          by (destruct e; try discriminate; reflexivity).
        rewrite Hmissed. right. exists e.
        repeat split; [left; reflexivity | exact Hcaught].
Qed.

(** With read errors limited to the caught classes the loop always
    returns. *)
Lemma thermal_zone_loop_recovers zones max_temp st :
  (forall e, In (FileRaises e) zones -> zone_error_caught e = true) ->
  thermal_zone_loop zones max_temp st
  = (Ok (max_of max_temp (zone_readings zones)), st).
Proof.
  intros Hcaught.
  destruct (thermal_zone_loop_cases zones max_temp st)
    as [Hok | (e & Hin & Hun & _)]; [exact Hok | ].
  rewrite (Hcaught e Hin) in Hun. discriminate.
Qed.

(** A read error outside the caught classes leaves the loop: the first
    such error is the one that propagates. *)
Lemma thermal_zone_loop_propagates zones : forall max_temp st e,
  In (FileRaises e) zones -> zone_error_caught e = false ->
  exists e',
    In (FileRaises e') zones /\ zone_error_caught e' = false /\
    thermal_zone_loop zones max_temp st = (Raise (Exc e'), st).
Proof.
  induction zones as [ | zone rest IH]; intros max_temp st e Hin Hun.
  - contradiction Hin.
  - cbn [thermal_zone_loop]. unfold bind at 1. unfold try_except.
    destruct zone as [text | e0].
    + destruct Hin as [Heq | Hin]; [discriminate Heq | ].
      unfold bind, open_read, ret, py_int.
      destruct (int_of_str (str_strip text)) as [n | ]; cbn.
      * destruct (IH (if n / 1000 >? max_temp then n / 1000 else max_temp)
                    st e Hin Hun) as (e' & Hin' & Hun' & Hraise).
        exists e'. repeat split; [right; exact Hin' | exact Hun' | exact Hraise].
      * destruct (IH max_temp st e Hin Hun) as (e' & Hin' & Hun' & Hraise).
        exists e'. repeat split; [right; exact Hin' | exact Hun' | exact Hraise].
    + unfold bind, open_read, raise.
      destruct (zone_error_caught e0) eqn:Hcaught.
      * assert (Hhandled : except_zone_errors (ret max_temp) (Exc e0)
                           = Some (ret max_temp))
          by (destruct e0; try discriminate; reflexivity).
        rewrite Hhandled. cbn.
        destruct Hin as [Heq | Hin]; [inversion Heq; congruence | ].
        destruct (IH max_temp st e Hin Hun) as (e' & Hin' & Hun' & Hraise).
        exists e'. repeat split; [right; exact Hin' | exact Hun' | exact Hraise].
      * assert (Hmissed : except_zone_errors (ret max_temp) (Exc e0) = None)
          by (destruct e0; try discriminate; reflexivity).
        rewrite Hmissed. exists e0.
        repeat split; [left; reflexivity | exact Hcaught].
Qed.

Lemma zone_readings_cons zone rest :
  zone_readings (zone :: rest)
  = match zone_celsius zone with
    | Some c => c :: zone_readings rest
    | None => zone_readings rest
    end.
Proof.
  unfold zone_readings. cbn [flat_map].
  destruct (zone_celsius zone); reflexivity.
Qed.

(** A zone that cannot be read contributes 0. *)
Lemma max_of_contributions zones :
  max_of 0 (zone_readings zones) = max_of 0 (map zone_contribution zones).
Proof.
  induction zones as [ | zone rest IH]; [reflexivity | ].
  rewrite zone_readings_cons. cbn [map]. unfold zone_contribution at 1.
  unfold max_of in *.
  destruct (zone_celsius zone) as [c | ]; cbn [fold_right].
  - now rewrite IH.
  - rewrite IH.
    pose proof (max_of_ge 0 (map zone_contribution rest)) as Hge.
    unfold max_of in Hge. lia.
Qed.

(** *** The [sensors] fallback *)

Lemma sensors_loop_ge lines : forall max_temp,
  max_temp <= fst (sensors_loop lines max_temp).
Proof.
  induction lines as [ | line rest IH]; intros max_temp; cbn [sensors_loop].
  - simpl. lia.
  - destruct (str_in "Package id" line && str_in DEGREES_C line).
    + destruct (nth_error (str_split "+" line) 1) as [after_plus | ].
      * destruct (int_of_float_str _) as [temp | e].
        -- rewrite gtb_max.
           specialize (IH (Z.max max_temp temp)). lia.
        -- simpl. lia.
      * simpl. lia.
    + apply IH.
Qed.

Lemma sensors_loop_parsed lines : forall max_temp,
  extraction_succeeds lines ->
  sensors_loop lines max_temp = (max_of max_temp (extracted_temps lines), None).
Proof.
  induction lines as [ | line rest IH]; intros max_temp Hparse.
  - reflexivity.
  - assert (Hrest : extraction_succeeds rest)
      by (intros l e Hin; apply Hparse; right; exact Hin).
    pose proof (Hparse line) as Hline.
    cbn [sensors_loop extracted_temps flat_map].
    unfold extracted_temp in Hline |- *.
    destruct (str_in "Package id" line && str_in DEGREES_C line).
    + destruct (nth_error (str_split "+" line) 1) as [after_plus | ].
      * destruct (int_of_float_str _) as [temp | e].
        -- rewrite gtb_max, (IH _ Hrest). cbn [app].
           fold (extracted_temps rest). cbn [max_of fold_right].
           fold (max_of max_temp (extracted_temps rest)).
           f_equal. apply max_of_base.
        -- exfalso. apply (Hline e); [left; reflexivity | reflexivity].
      * exfalso. apply (Hline IndexError); [left; reflexivity | reflexivity].
    + cbn [app]. apply IH. exact Hrest.
Qed.

(** The fallback always returns: it runs [sensors] once, changes nothing
    but the log and the call record, and never lowers [max_temp]. *)
Lemma sensors_fallback_returns max_temp st :
  exists v st',
    sensors_fallback w max_temp st = (Ok v, st') /\
    max_temp <= v /\
    calls st' = calls st ++ [Shell CMD_SENSORS] /\
    current_speed st' = current_speed st /\
    clock st' = clock st.
Proof.
  unfold sensors_fallback, bind at 1, try_except, bind at 1.
  destruct (run_command_cases w CMD_SENSORS true st)
    as (r & st1 & Hrun & Hr & Hcalls & Hspeed & Hclock).
  rewrite Hrun.
  destruct r as [output | [e | | ] | ]; try contradiction; cbn.
  - destruct output as [text | ].
    + destruct (truthy text).
      * pose proof (sensors_loop_ge (str_split LF text) max_temp) as Hge.
        destruct (sensors_loop (str_split LF text) max_temp) as [v [e | ]];
          cbn in *; do 2 eexists; repeat split; eauto.
      * do 2 eexists; repeat split; eauto. lia.
    + do 2 eexists; repeat split; eauto. lia.
  - do 2 eexists; repeat split; eauto. lia.
Qed.

(** *** The GPU query *)

Lemma gpu_loop_cases lines : forall max_temp max_util st,
  (exists temp util,
     gpu_loop lines max_temp max_util st = (Ok (temp, util), st) /\
     max_temp <= temp /\ max_util <= util)
  \/ gpu_loop lines max_temp max_util st = (Raise (Exc ValueError), st).
Proof.
  induction lines as [ | line rest IH]; intros max_temp max_util st.
  - left. exists max_temp, max_util. repeat split; lia.
  - cbn [gpu_loop].
    destruct (truthy (str_strip line)); [ | apply IH].
    destruct (str_split "," line) as [ | part0 [ | part1 parts]];
      try apply IH.
    unfold bind, py_int.
    destruct (int_of_str (str_strip part0)) as [temp | ];
      [ | right; reflexivity].
    cbn. destruct (int_of_str (str_strip part1)) as [util | ];
      [ | right; reflexivity].
    cbn. rewrite !gtb_max.
    destruct (IH (Z.max max_temp temp) (Z.max max_util util) st)
      as [(t & u & Hok & Ht & Hu) | Hraise].
    + left. exists t, u. repeat split; [exact Hok | lia | lia].
    + right. exact Hraise.
Qed.

(** [get_gpu_data] always returns a pair of non-negative values. *)
Lemma get_gpu_data_returns st :
  exists temp util st',
    get_gpu_data w st = (Ok (temp, util), st') /\
    0 <= temp /\ 0 <= util /\
    calls st' = calls st ++ [Shell CMD_NVIDIA_SMI] /\
    current_speed st' = current_speed st /\
    clock st' = clock st.
Proof.
  unfold get_gpu_data, try_except, bind at 1.
  destruct (run_command_cases w CMD_NVIDIA_SMI true st)
    as (r & st1 & Hrun & Hr & Hcalls & Hspeed & Hclock).
  rewrite Hrun.
  destruct r as [output | [e | | ] | ]; try contradiction; cbn.
  - destruct output as [text | ].
    + destruct (truthy text).
      * destruct (gpu_loop_cases (str_split LF text) 0 0 st1)
          as [(t & u & Hok & Ht & Hu) | Hraise].
        -- rewrite Hok. exists t, u, st1. repeat split; assumption.
        -- rewrite Hraise. cbn.
           do 3 eexists; repeat split; eauto; lia.
      * do 3 eexists; repeat split; eauto; lia.
    + do 3 eexists; repeat split; eauto; lia.
  - do 3 eexists; repeat split; eauto; lia.
Qed.

(** [get_cpu_temp] either returns a non-negative value, having changed
    nothing but the log and the record of sensor queries, or propagates the
    exception of a thermal zone that line 142 does not catch. *)
Lemma get_cpu_temp_cases st :
  (exists v st',
     get_cpu_temp w st = (Ok v, st') /\ 0 <= v /\
     sensor_frame st st')
  \/ exists e,
       In (FileRaises e) (thermal_zones (w (clock st))) /\
       zone_error_caught e = false /\
       get_cpu_temp w st = (Raise (Exc e), st).
Proof.
  unfold get_cpu_temp, bind, glob_thermal_zones.
  destruct (thermal_zone_loop_cases (thermal_zones (w (clock st))) 0 st)
    as [Hok | (e & Hin & Hun & Hraise)].
  - left. rewrite Hok.
    pose proof (max_of_ge 0 (zone_readings (thermal_zones (w (clock st)))))
      as Hge.
    destruct (_ =? 0) eqn:Hzero.
    + destruct (sensors_fallback_returns
                  (max_of 0 (zone_readings (thermal_zones (w (clock st))))) st)
        as (v & st' & Hfb & Hv & Hcalls & Hspeed & Hclock).
      exists v, st'. repeat split; try assumption; try lia.
      unfold actuator_calls. rewrite Hcalls, filter_app. apply app_nil_r.
    + do 2 eexists. repeat split. exact Hge.
  - right. exists e. rewrite Hraise. repeat split; assumption.
Qed.

(** [get_cpu_temp] does not catch what its loop over the zones lets
    through. *)
Lemma get_cpu_temp_propagates st e :
  In (FileRaises e) (thermal_zones (w (clock st))) ->
  zone_error_caught e = false ->
  exists e',
    In (FileRaises e') (thermal_zones (w (clock st))) /\
    zone_error_caught e' = false /\
    get_cpu_temp w st = (Raise (Exc e'), st).
Proof.
  intros Hin Hun.
  destruct (thermal_zone_loop_propagates _ 0 st e Hin Hun)
    as (e' & Hin' & Hun' & Hraise).
  exists e'. repeat split; [exact Hin' | exact Hun' | ].
  unfold get_cpu_temp, bind, glob_thermal_zones. rewrite Hraise. reflexivity.
Qed.

End SensorFacts.

(** ** Splitting the lines of [sensors] *)

Section Splitting.

Local Open Scope string_scope.

Lemma prefix_empty t : prefix EmptyString t = true.
Proof. destruct t; reflexivity. Qed.

Lemma prefix_append s t : prefix s (s ++ t) = true.
Proof.
  induction s as [ | c s IH]; cbn.
  - apply prefix_empty.
  - destruct (ascii_dec c c) as [_ | Hc]; [exact IH | contradiction].
Qed.

Lemma prefix_append_l sub s t :
  prefix sub s = true -> prefix sub (s ++ t) = true.
Proof.
  revert s. induction sub as [ | a sub IH]; intros s H.
  - apply prefix_empty.
  - destruct s as [ | b s]; cbn in *; [discriminate H | ].
    destruct (ascii_dec a b); [apply IH; exact H | discriminate H].
Qed.

Lemma str_in_append_l sub s t :
  str_in sub s = true -> str_in sub (s ++ t) = true.
Proof.
  induction s as [ | c s IH]; cbn [str_in]; intros H.
  - rewrite orb_false_r in H.
    destruct sub; [ | discriminate H].
    destruct t; reflexivity.
  - apply orb_true_iff in H. cbn [append str_in]. apply orb_true_iff.
    destruct H as [H | H].
    + left. apply (prefix_append_l sub (String c s) t H).
    + right. apply IH. exact H.
Qed.

Lemma str_in_append_r sub s t :
  str_in sub t = true -> str_in sub (s ++ t) = true.
Proof.
  intros H. induction s as [ | c s IH]; cbn [append].
  - exact H.
  - cbn [str_in]. rewrite IH. apply orb_true_r.
Qed.

Lemma str_in_prefix sub t : str_in sub (sub ++ t) = true.
Proof.
  destruct (sub ++ t)%string eqn:Hs; cbn [str_in]; rewrite <- Hs, prefix_append;
    reflexivity.
Qed.

(** A piece without the separator's first character is not cut. *)
Lemma split_from_through a sep s t :
  all_chars (fun c => negb (Ascii.eqb c a)) s = true ->
  split_from (String a sep) 0 (s ++ t)
  = (s ++ fst (split_from (String a sep) 0 t),
     snd (split_from (String a sep) 0 t)).
Proof.
  induction s as [ | c s IH]; cbn [all_chars append]; intros H.
  - destruct (split_from (String a sep) 0 t). reflexivity.
  - apply andb_true_iff in H. destruct H as [Hc Hs].
    apply negb_true_iff in Hc. apply Ascii.eqb_neq in Hc.
    cbn [split_from prefix].
    destruct (ascii_dec a c) as [Heq | _]; [congruence | ].
    rewrite (IH Hs). reflexivity.
Qed.

Lemma split_from_at sep t :
  truthy sep = true ->
  fst (split_from sep 0 (sep ++ t)) = EmptyString.
Proof.
  intros Hsep. destruct sep as [ | a sep]; [discriminate Hsep | ].
  cbn [append split_from].
  change (String a (sep ++ t)) with (String a sep ++ t).
  rewrite prefix_append. reflexivity.
Qed.

(** The first piece of a string that continues with the separator. *)
Lemma split_first_piece a sep s t :
  all_chars (fun c => negb (Ascii.eqb c a)) s = true ->
  hd EmptyString (str_split (String a sep) (s ++ String a sep ++ t)) = s.
Proof.
  intros Hs. unfold str_split.
  rewrite (split_from_through a sep s _ Hs).
  rewrite (split_from_at (String a sep) t eq_refl).
  cbn [hd]. clear. induction s as [ | c s IH]; cbn; congruence.
Qed.

Lemma no_char_str_in a s :
  str_in (String a EmptyString) s = false ->
  all_chars (fun c => negb (Ascii.eqb c a)) s = true.
Proof.
  induction s as [ | c s IH]; cbn [str_in all_chars prefix]; intros H.
  - reflexivity.
  - apply orb_false_iff in H. destruct H as [Hc Hs].
    rewrite (IH Hs), andb_true_r.
    destruct (ascii_dec a c) as [Heq | Hne].
    + destruct s; discriminate Hc.
    + apply negb_true_iff. apply Ascii.eqb_neq. congruence.
Qed.

Lemma decimal_chars_avoid a s :
  is_decimal_char a = false ->
  all_chars is_decimal_char s = true ->
  all_chars (fun c => negb (Ascii.eqb c a)) s = true.
Proof.
  intros Ha. induction s as [ | c s IH]; cbn [all_chars]; intros H.
  - reflexivity.
  - apply andb_true_iff in H. destruct H as [Hc Hs].
    rewrite (IH Hs), andb_true_r.
    apply negb_true_iff. apply Ascii.eqb_neq. intros ->. congruence.
Qed.

Lemma split_from_char a t :
  split_from (String a EmptyString) 0 (String a t)
  = (EmptyString,
     let (p, ps) := split_from (String a EmptyString) 0 t in p :: ps).
Proof.
  cbn [split_from].
  rewrite (prefix_append (String a EmptyString) t
           : prefix _ (String a t) = true).
  reflexivity.
Qed.

(** A string without the separator's first character is one piece. *)
Lemma split_from_whole a sep s :
  all_chars (fun c => negb (Ascii.eqb c a)) s = true ->
  split_from (String a sep) 0 s = (s, []).
Proof.
  induction s as [ | c s IH]; cbn [all_chars]; intros H.
  - reflexivity.
  - apply andb_true_iff in H. destruct H as [Hc Hs].
    apply negb_true_iff in Hc. apply Ascii.eqb_neq in Hc.
    cbn [split_from prefix].
    destruct (ascii_dec a c) as [Heq | _]; [congruence | ].
    rewrite (IH Hs). reflexivity.
Qed.

(** The second piece of a line cut at [+], when its first [+] is followed
    by decimal characters and the degree marker. *)
Lemma second_piece label digits trailer :
  str_in "+" label = false ->
  all_chars is_decimal_char digits = true ->
  exists more,
    nth_error
      (str_split "+" (label ++ "+" ++ digits ++ DEGREES_C ++ trailer)) 1
    = Some (digits ++ DEGREES_C ++ more).
Proof.
  intros Hlabel Hdigits. unfold str_split.
  rewrite (split_from_through "+" EmptyString label _
             (no_char_str_in _ _ Hlabel)).
  change ("+" ++ digits ++ DEGREES_C ++ trailer)
    with (String "+" (digits ++ DEGREES_C ++ trailer)).
  rewrite split_from_char.
  rewrite (split_from_through "+" EmptyString digits _
             (decimal_chars_avoid "+" digits eq_refl Hdigits)).
  rewrite (split_from_through "+" EmptyString DEGREES_C trailer eq_refl).
  cbn [fst snd nth_error]. eexists. reflexivity.
Qed.

(** The text before the degree marker, when it is made of decimal
    characters. *)
Lemma before_degrees digits more :
  all_chars is_decimal_char digits = true ->
  hd EmptyString (str_split DEGREES_C (digits ++ DEGREES_C ++ more)) = digits.
Proof.
  intros Hdigits.
  apply (split_first_piece "194" (String "176" (String "C" EmptyString))).
  apply decimal_chars_avoid; [reflexivity | exact Hdigits].
Qed.

Context {builtins : PyBuiltins}.

(** On a well-formed line, what lines 153-156 extract is the reading. *)
Lemma extracted_temp_render l :
  well_formed l = true -> extracted_temp (render l) = reading l.
Proof.
  destruct l as [label digits trailer | text]; cbn [well_formed render reading];
    intros Hwf; unfold extracted_temp.
  - apply andb_true_iff in Hwf. destruct Hwf as [Hwf Hdigits].
    apply andb_true_iff in Hwf. destruct Hwf as [Hwf _].
    apply andb_true_iff in Hwf. destruct Hwf as [Hname Hplus].
    apply negb_true_iff in Hplus.
    rewrite (str_in_append_l _ label _ Hname).
    rewrite (str_in_append_r DEGREES_C label _
               (str_in_append_r DEGREES_C "+" _
                  (str_in_append_r DEGREES_C digits _
                     (str_in_prefix DEGREES_C trailer)))).
    cbn [andb].
    destruct (second_piece label digits trailer Hplus Hdigits)
      as (more & Hpiece).
    rewrite Hpiece, (before_degrees digits more Hdigits). reflexivity.
  - apply negb_true_iff in Hwf. rewrite Hwf. reflexivity.
Qed.

(** A package line without any [+] has no second piece. *)
Lemma extracted_temp_unreadable line e :
  unreadable line e -> extracted_temp line = Some (inr e).
Proof.
  intros [(Hname & Hdeg & Hplus & ->)
         | (label & digits & trailer & -> & Hwf & Hraise)].
  - unfold extracted_temp, str_split. rewrite Hname, Hdeg. cbn [andb].
    rewrite (split_from_whole "+" EmptyString line
               (no_char_str_in _ _ Hplus)).
    reflexivity.
  - rewrite (extracted_temp_render _ Hwf). cbn [reading].
    rewrite Hraise. reflexivity.
Qed.

Lemma extracted_temps_render ls :
  (forall l, In l ls -> well_formed l = true) ->
  extracted_temps (map render ls) = readings ls.
Proof.
  induction ls as [ | l ls IH]; intros Hwf.
  - reflexivity.
  - unfold extracted_temps, readings in *. cbn [map flat_map].
    rewrite (extracted_temp_render l (Hwf l (or_introl eq_refl))).
    f_equal. apply IH. intros l' Hin. apply Hwf. right. exact Hin.
Qed.

Lemma extraction_succeeds_render ls :
  lines_read ls -> extraction_succeeds (map render ls).
Proof.
  intros Hread line e Hin.
  apply in_map_iff in Hin. destruct Hin as (l & <- & Hin).
  destruct (Hread l Hin) as [Hwf Hok].
  rewrite (extracted_temp_render l Hwf). apply Hok.
Qed.

Lemma lines_read_well_formed ls :
  lines_read ls -> forall l, In l ls -> well_formed l = true.
Proof. intros Hread l Hin. apply (Hread l Hin). Qed.

End Splitting.

(** ** Properties of the telemetry *)

Section Telemetry.

Context {builtins : PyBuiltins}.
Variable w : world.

(** C9, as amended: [get_gpu_data] returns a pair of values that are
    both at least 0 in every environment; every value that [get_cpu_temp]
    returns is at least 0; and [get_cpu_temp] does return a value, at
    least 0, whenever the errors raised by reading the thermal zone files
    are among [FileNotFoundError], [PermissionError] and [ValueError];
    when reading a thermal zone file raises an error of another class,
    [get_cpu_temp] returns no value, it raises. *)
Theorem telemetry_never_negative st :
  (exists temp util st',
     get_gpu_data w st = (Ok (temp, util), st') /\ 0 <= temp /\ 0 <= util)
  /\ (forall v st', get_cpu_temp w st = (Ok v, st') -> 0 <= v)
  /\ ((forall e, In (FileRaises e) (thermal_zones (w (clock st))) ->
                 zone_error_caught e = true) ->
      exists v st', get_cpu_temp w st = (Ok v, st') /\ 0 <= v)
  /\ (forall e, In (FileRaises e) (thermal_zones (w (clock st))) ->
                zone_error_caught e = false ->
                exists e', zone_error_caught e' = false /\
                           get_cpu_temp w st = (Raise (Exc e'), st)).
Proof.
  split; [ | split; [ | split]].
  - destruct (get_gpu_data_returns w st)
      as (t & u & st' & Hgpu & Ht & Hu & _).
    exists t, u, st'. repeat split; assumption.
  - intros v st' Hret.
    destruct (get_cpu_temp_cases w st)
      as [(v0 & st0 & Hcpu & Hv & _) | (e & _ & _ & Hraise)];
      rewrite Hret in *.
    + inversion Hcpu. subst. exact Hv.
    + discriminate Hraise.
  - intros Hcaught.
    destruct (get_cpu_temp_cases w st)
      as [(v & st' & Hcpu & Hv & _) | (e & Hin & Hun & _)].
    + exists v, st'. split; assumption.
    + rewrite (Hcaught e Hin) in Hun. discriminate Hun.
  - intros e Hin Hun.
    destruct (get_cpu_temp_propagates w st e Hin Hun)
      as (e' & _ & Hun' & Hraise).
    exists e'. split; assumption.
Qed.

(** A failing [nvidia-smi] yields (0, 0). *)
Lemma get_gpu_data_command_fails st :
  (exists rc out,
     proc (w (clock st)) (Shell CMD_NVIDIA_SMI) = Completed rc out /\ rc <> 0)
  \/ (exists e, proc (w (clock st)) (Shell CMD_NVIDIA_SMI) = SpawnRaises e) ->
  fst (get_gpu_data w st) = Ok (0, 0).
Proof.
  intros [(rc & out & Hproc & Hrc) | (e & Hproc)];
    unfold get_gpu_data, try_except, bind at 1.
  - rewrite (run_command_fails w _ _ _ _ _ Hproc Hrc). reflexivity.
  - unfold run_command, try_except, bind, subprocess_run. rewrite Hproc.
    destruct e; reflexivity.
Qed.

(** A row that does not parse ends the loop of [get_gpu_data] with
    [ValueError], wherever it stands. *)
Lemma gpu_loop_malformed lines : forall max_temp max_util st,
  (exists line, In line lines /\ gpu_row line = Some None) ->
  gpu_loop lines max_temp max_util st = (Raise (Exc ValueError), st).
Proof.
  induction lines as [ | line rest IH];
    intros max_temp max_util st (bad & Hin & Hbad).
  - contradiction Hin.
  - destruct Hin as [<- | Hin].
    + unfold gpu_row in Hbad. cbn [gpu_loop].
      destruct (truthy (str_strip line)); [ | discriminate Hbad].
      destruct (str_split "," line) as [ | part0 [ | part1 parts]];
        try discriminate Hbad.
      unfold bind, py_int.
      destruct (int_of_str (str_strip part0)) as [temp | ];
        [ | reflexivity].
      cbn. destruct (int_of_str (str_strip part1)) as [util | ];
        [discriminate Hbad | reflexivity].
    + assert (Hrest : exists l, In l rest /\ gpu_row l = Some None)
        by (exists bad; split; assumption).
      cbn [gpu_loop].
      destruct (truthy (str_strip line)); [ | apply IH; exact Hrest].
      destruct (str_split "," line) as [ | part0 [ | part1 parts]];
        try (apply IH; exact Hrest).
      unfold bind, py_int.
      destruct (int_of_str (str_strip part0)) as [temp | ];
        [ | reflexivity].
      cbn. destruct (int_of_str (str_strip part1)) as [util | ];
        [ | reflexivity].
      cbn. apply IH. exact Hrest.
Qed.

(** C6, as amended: [get_gpu_data] returns normally in every environment,
    and (0, 0) when its command fails or a row of its output is
    malformed; [get_cpu_temp] returns normally whenever the errors raised
    by reading the thermal zone files are among [FileNotFoundError],
    [PermissionError] and [ValueError], and each zone that cannot be read
    then contributes 0 to the maximum of the zones; an error of another
    class raised by reading a thermal zone file is not caught, and
    [get_cpu_temp] raises. *)
Theorem sensor_reads_recover_from_caught_errors st :
  (exists temp util st', get_gpu_data w st = (Ok (temp, util), st'))
  /\ ((exists rc out,
         proc (w (clock st)) (Shell CMD_NVIDIA_SMI) = Completed rc out /\
         rc <> 0)
      \/ (exists e, proc (w (clock st)) (Shell CMD_NVIDIA_SMI) = SpawnRaises e)
      -> fst (get_gpu_data w st) = Ok (0, 0))
  /\ (forall text line,
        proc (w (clock st)) (Shell CMD_NVIDIA_SMI) = Completed 0 text ->
        In line (str_split LF (str_strip text)) ->
        gpu_row line = Some None ->
        fst (get_gpu_data w st) = Ok (0, 0))
  /\ ((forall e, In (FileRaises e) (thermal_zones (w (clock st))) ->
                 zone_error_caught e = true) ->
      (exists v st', get_cpu_temp w st = (Ok v, st'))
      /\ thermal_zone_loop (thermal_zones (w (clock st))) 0 st
         = (Ok (max_of 0
                  (map zone_contribution (thermal_zones (w (clock st))))),
            st))
  /\ (forall e, In (FileRaises e) (thermal_zones (w (clock st))) ->
                zone_error_caught e = false ->
                exists e', zone_error_caught e' = false /\
                           get_cpu_temp w st = (Raise (Exc e'), st)).
Proof.
  split; [ | split; [ | split; [ | split]]].
  - destruct (get_gpu_data_returns w st) as (t & u & st' & Hgpu & _).
    exists t, u, st'. exact Hgpu.
  - apply get_gpu_data_command_fails.
  - intros text line Hproc Hin Hrow.
    unfold get_gpu_data, try_except, bind at 1.
    rewrite (run_command_succeeds w _ _ _ _ Hproc).
    destruct (truthy (str_strip text)); [ | reflexivity].
    rewrite (gpu_loop_malformed _ 0 0 _ (ex_intro _ line (conj Hin Hrow))).
    reflexivity.
  - intros Hcaught. split.
    + destruct (get_cpu_temp_cases w st)
        as [(v & st' & Hcpu & _) | (e & Hin & Hun & _)].
      * exists v, st'. exact Hcpu.
      * rewrite (Hcaught e Hin) in Hun. discriminate.
    + rewrite <- max_of_contributions.
      apply thermal_zone_loop_recovers. exact Hcaught.
  - intros e Hin Hun.
    destruct (get_cpu_temp_propagates w st e Hin Hun)
      as (e' & _ & Hun' & Hraise).
    exists e'. split; assumption.
Qed.

(** C7, as amended: provided the errors raised by reading the thermal
    zone files are among [FileNotFoundError], [PermissionError] and
    [ValueError], [get_cpu_temp] returns the maximum of the zone readings
    when that maximum is positive, without consulting [sensors]; otherwise
    (no reading, or none above 0 degrees) it runs [sensors] once, and when
    that command succeeds with well-formed lines whose package readings
    are positive and convert, it returns the maximum of 0 and these
    readings. *)
Theorem cpu_temp_zone_maximum_or_fallback st :
  (forall e, In (FileRaises e) (thermal_zones (w (clock st))) ->
             zone_error_caught e = true) ->
  (0 < max_of 0 (zone_readings (thermal_zones (w (clock st)))) ->
   get_cpu_temp w st
   = (Ok (max_of 0 (zone_readings (thermal_zones (w (clock st))))), st))
  /\
  (max_of 0 (zone_readings (thermal_zones (w (clock st)))) <= 0 ->
   calls (snd (get_cpu_temp w st)) = calls st ++ [Shell CMD_SENSORS]
   /\ forall text ls,
        proc (w (clock st)) (Shell CMD_SENSORS) = Completed 0 text ->
        str_split LF (str_strip text) = map render ls ->
        lines_read ls ->
        fst (get_cpu_temp w st) = Ok (max_of 0 (readings ls))).
Proof.
  intros Hcaught.
  pose proof (thermal_zone_loop_recovers _ 0 st Hcaught) as Hloop.
  pose proof (max_of_ge 0 (zone_readings (thermal_zones (w (clock st)))))
    as Hge.
  split; intros Hmax; unfold get_cpu_temp, bind, glob_thermal_zones; rewrite Hloop.
  - replace (_ =? 0) with false by (symmetry; apply Z.eqb_neq; lia).
    reflexivity.
  - replace (max_of 0 (zone_readings (thermal_zones (w (clock st)))))
      with 0 by lia.
    cbn [Z.eqb]. split.
    + destruct (sensors_fallback_returns w 0 st)
        as (v & st' & Hfb & _ & Hcalls & _).
      rewrite Hfb. exact Hcalls.
    + intros text ls Hproc Hlines Hread.
      unfold sensors_fallback, bind at 1, try_except, bind at 1.
      rewrite (run_command_succeeds w _ _ _ _ Hproc). cbn.
      destruct (truthy (str_strip text)) eqn:Htext.
      * rewrite Hlines.
        rewrite (sensors_loop_parsed _ _ (extraction_succeeds_render ls Hread)).
        rewrite (extracted_temps_render ls (lines_read_well_formed ls Hread)).
        reflexivity.
      * rewrite <- (extracted_temps_render ls (lines_read_well_formed ls Hread)).
        rewrite <- Hlines.
        destruct (str_strip text); [reflexivity | discriminate].
Qed.

End Telemetry.

(** Negative readings are clamped at 0. *)
Example below_zero_telemetry :
  fst (get_gpu_data (builtins := ascii_builtins) (always below_zero)
         initial_state) = Ok (40, 15)
  /\ fst (get_cpu_temp (builtins := ascii_builtins) (always below_zero)
            initial_state) = Ok 0.
Proof. vm_compute. split; reflexivity. Qed.

(** A row that does not parse discards the readings of the other GPUs. *)
Example malformed_row_zeroes_gpu_data :
  fst (get_gpu_data (builtins := ascii_builtins) (always one_gpu_unsupported)
         initial_state) = Ok (0, 0).
Proof. vm_compute. reflexivity. Qed.

(** C9, the claim as stated fails: with one thermal zone at -12 degrees
    and another whose read raises [OSError], [get_cpu_temp] returns no
    value at all; it raises. *)
Lemma no_cpu_temperature_on_io_error :
  zone_error_caught OSError = false
  /\ get_cpu_temp (builtins := ascii_builtins) (always cold_zone_io_error)
       initial_state
     = (Raise (Exc OSError), initial_state).
Proof. vm_compute. split; reflexivity. Qed.

Ltac caught_zone_errors :=
  let e := fresh "e" in
  let Hin := fresh "Hin" in
  intros e Hin; simpl in Hin;
  repeat match type of Hin with
         | _ \/ _ => destruct Hin as [Hin | Hin]
         end;
  solve [ contradiction | discriminate Hin | inversion Hin; reflexivity ].

Lemma telemetry_never_negative_witness :
  exists v st',
    get_cpu_temp (builtins := ascii_builtins) (always below_zero)
      initial_state = (Ok v, st')
    /\ 0 <= v.
Proof.
  apply (telemetry_never_negative
           (builtins := ascii_builtins) (always below_zero) initial_state).
  caught_zone_errors.
Defined.

(** C6, the claim as stated fails: one zone reads 45 degrees and reading
    the other raises [OSError]; [get_cpu_temp] raises instead of returning
    45. *)
Lemma get_cpu_temp_raises_on_io_error :
  get_cpu_temp (builtins := ascii_builtins) (always zone_io_error)
    initial_state
  = (Raise (Exc OSError), initial_state).
Proof. vm_compute. reflexivity. Qed.

Lemma sensor_reads_recover_from_caught_errors_witness :
  fst (get_gpu_data (builtins := ascii_builtins) (always degraded_sensors)
         initial_state) = Ok (0, 0)
  /\ fst (get_gpu_data (builtins := ascii_builtins)
            (always one_gpu_unsupported) initial_state) = Ok (0, 0)
  /\ thermal_zone_loop (builtins := ascii_builtins)
       (thermal_zones degraded_sensors) 0 initial_state
     = (Ok 45, initial_state).
Proof.
  pose proof (sensor_reads_recover_from_caught_errors
                (builtins := ascii_builtins) (always degraded_sensors)
                initial_state)
    as (_ & Hgpu & _ & Hcpu & _).
  pose proof (sensor_reads_recover_from_caught_errors
                (builtins := ascii_builtins) (always one_gpu_unsupported)
                initial_state)
    as (_ & _ & Hrow & _).
  split; [ | split].
  - apply Hgpu. left. exists 127, EmptyString. split; [reflexivity | lia].
  - apply (Hrow ("85, 90" ++ LF ++ "41, [N/A]")%string "41, [N/A]"%string).
    + reflexivity.
    + vm_compute. right. left. reflexivity.
    + vm_compute. reflexivity.
  - apply Hcpu. caught_zone_errors.
Defined.

(** C7, the claim as stated fails: the thermal zones yield the readings -5
    and 0, whose maximum is 0, yet [sensors] is consulted and its 45
    degrees are returned. *)
Lemma fallback_consulted_despite_readings :
  zone_readings (builtins := ascii_builtins) (thermal_zones cold_zones)
  = [-5; 0]
  /\ get_cpu_temp (builtins := ascii_builtins) (always cold_zones)
       initial_state
     = (Ok 45, add_call (Shell CMD_SENSORS) initial_state).
Proof. vm_compute. split; reflexivity. Qed.

(** The reading of a package below zero is not what lines 153-156 pick:
    the text after the first [+] of the line is the [high] limit. *)
Example package_below_zero_reads_high_limit :
  fst (get_cpu_temp (builtins := ascii_builtins) (always package_below_zero)
         initial_state) = Ok 80.
Proof. vm_compute. reflexivity. Qed.

Lemma cpu_temp_zone_maximum_or_fallback_witness :
  get_cpu_temp (builtins := ascii_builtins) (always degraded_sensors)
    initial_state
  = (Ok 45, initial_state)
  /\ fst (get_cpu_temp (builtins := ascii_builtins) (always cold_zones)
            initial_state) = Ok 45.
Proof.
  split.
  - apply (cpu_temp_zone_maximum_or_fallback
             (builtins := ascii_builtins) (always degraded_sensors)
             initial_state); [caught_zone_errors | ].
    vm_compute. reflexivity.
  - assert (Hcaught :
              forall e, In (FileRaises e) (thermal_zones cold_zones) ->
                        zone_error_caught e = true)
      by caught_zone_errors.
    destruct (cpu_temp_zone_maximum_or_fallback
                (builtins := ascii_builtins) (always cold_zones)
                initial_state Hcaught) as [_ Hfallback].
    destruct Hfallback as [_ Hvalue]; [vm_compute; discriminate | ].
    apply (Hvalue
             "Package id 0:  +45.0°C  (high = +80.0°C, crit = +100.0°C)"%string
             [package_at_45]).
    + reflexivity.
    + vm_compute. reflexivity.
    + intros l [<- | []]. split; [reflexivity | ].
      intros e. vm_compute. discriminate.
Defined.

(** ** One control cycle *)

Section Cycle.

Context {builtins : PyBuiltins}.
Variable w : world.

Lemma actuator_calls_app st st' extra :
  calls st' = calls st ++ extra ->
  actuator_calls st' = actuator_calls st ++ filter is_actuator extra.
Proof. intros H. unfold actuator_calls. rewrite H. apply filter_app. Qed.

(** [set_fan_speed] always returns; it sends the mode command first and at
    most the duty-cycle command after it. *)
Lemma set_fan_speed_effect speed_hex reason st :
  exists st' more,
    set_fan_speed w speed_hex reason st = (Ok tt, st') /\
    actuator_calls st' = actuator_calls st ++ Shell CMD_MANUAL :: more /\
    clock st' = clock st.
Proof.
  unfold set_fan_speed, try_except, bind at 1.
  destruct (run_command_cases w CMD_MANUAL false st)
    as (r1 & st1 & Hrun1 & Hr1 & Hcalls1 & _ & Hclock1).
  rewrite Hrun1.
  destruct r1 as [o1 | [e1 | | ] | ]; try contradiction.
  - unfold bind at 1.
    destruct (run_command_cases w (CMD_SPEED speed_hex) false st1)
      as (r2 & st2 & Hrun2 & Hr2 & Hcalls2 & _ & Hclock2).
    rewrite Hrun2.
    assert (Hact2 :
              actuator_calls st2
              = actuator_calls st
                  ++ [Shell CMD_MANUAL; Shell (CMD_SPEED speed_hex)]).
    { unfold actuator_calls.
      rewrite Hcalls2, Hcalls1, <- app_assoc, filter_app. reflexivity. }
    destruct r2 as [o2 | [e2 | | ] | ]; try contradiction.
    + unfold bind at 1, percentage.
      destruct (true_divide_overflows speed_hex 100); cbn;
        do 2 eexists; (repeat split; [exact Hact2 | cbn; congruence]).
    + cbn. do 2 eexists. repeat split; [exact Hact2 | cbn; congruence].
  - cbn. do 2 eexists. repeat split; [ | cbn; congruence].
    unfold add_log, actuator_calls. cbn [calls].
    rewrite Hcalls1, filter_app. reflexivity.
Qed.

(** C5: in a cycle whose telemetry is read, no command goes to the BMC and
    [current_speed] stays as it is when the decision equals the current
    level; when the decision differs, a commit is attempted, starting with
    the manual-mode command. *)
Theorem commit_only_when_decision_differs
  st gpu_temp gpu_util cpu_temp st1 st2 new_speed reason :
  get_gpu_data w st = (Ok (gpu_temp, gpu_util), st1) ->
  get_cpu_temp w st1 = (Ok cpu_temp, st2) ->
  fst (determine_fan_speed gpu_temp cpu_temp gpu_util st)
  = Ok (new_speed, reason) ->
  fst (loop_body w st) = Ok tt
  /\ (new_speed = current_speed st ->
      actuator_calls (snd (loop_body w st)) = actuator_calls st /\
      current_speed (snd (loop_body w st)) = current_speed st)
  /\ (new_speed <> current_speed st ->
      exists more,
        actuator_calls (snd (loop_body w st))
        = actuator_calls st ++ Shell CMD_MANUAL :: more).
Proof.
  intros Hgpu Hcpu Hdecision.
  (* the sensors leave the level and the actuator record alone *)
  destruct (get_gpu_data_returns w st)
    as (t & u & st1' & Hgpu' & _ & _ & Hcalls1 & Hspeed1 & Hclock1).
  rewrite Hgpu in Hgpu'. inversion Hgpu'; subst t u st1'. clear Hgpu'.
  destruct (get_cpu_temp_cases w st1)
    as [(v & st2' & Hcpu' & _ & Hspeed2 & Hclock2 & Hact2)
       | (e & _ & _ & Hraise)];
    [ | rewrite Hcpu in Hraise; discriminate].
  rewrite Hcpu in Hcpu'. inversion Hcpu'; subst v st2'. clear Hcpu'.
  assert (Hact1 : actuator_calls st1 = actuator_calls st)
    by (rewrite (actuator_calls_app _ _ _ Hcalls1); apply app_nil_r).
  set (st3 := add_log LvInfo (MsgTemperatures gpu_temp cpu_temp gpu_util) st2).
  assert (Hspeed3 : current_speed st3 = current_speed st)
    by (cbn; congruence).
  assert (Hact3 : actuator_calls st3 = actuator_calls st)
    by (unfold st3, add_log, actuator_calls in *; cbn [calls]; congruence).
  (* the decision taken on the state of the cycle *)
  destruct (determine_fan_speed_pure gpu_temp cpu_temp gpu_util st3)
    as (decision & Hdet).
  pose proof (determine_fan_speed_current gpu_temp cpu_temp gpu_util st3 st
                Hspeed3) as Hsame.
  rewrite Hdet, Hdecision in Hsame. cbn in Hsame.
  inversion Hsame; subst decision. clear Hsame.
  assert (Hbody :
            loop_body w st
            = ((if negb (new_speed =? current_speed st)
                then set_fan_speed w new_speed reason
                else ret tt) ;; time_sleep) st3).
  { unfold loop_body. unfold bind at 1. rewrite Hgpu.
    unfold bind at 1. rewrite Hcpu.
    unfold bind at 1. unfold logger at 1. fold st3.
    unfold bind at 1. rewrite Hdet.
    unfold bind at 1. unfold get_current_speed at 1.
    rewrite Hspeed3. reflexivity. }
  rewrite Hbody. clear Hbody.
  destruct (Z.eq_dec new_speed (current_speed st)) as [Heq | Hne].
  - replace (new_speed =? current_speed st) with true
      by (symmetry; apply Z.eqb_eq; exact Heq).
    cbn. split; [reflexivity | split].
    + intros _. split; assumption.
    + intros Hne. contradiction.
  - replace (new_speed =? current_speed st) with false
      by (symmetry; apply Z.eqb_neq; exact Hne).
    cbn [negb]. unfold bind.
    destruct (set_fan_speed_effect new_speed reason st3)
      as (st4 & more & Hset & Hact4 & _).
    rewrite Hset. cbn. split; [reflexivity | split].
    + intros Heq. contradiction.
    + intros _. exists more.
      unfold tick, actuator_calls in *. cbn [calls]. congruence.
Qed.

End Cycle.

(** Scenario 2 of the specification as a cycle: telemetry (55, 30, 20) at
    HIGH is in the dead zone, and the cycle only queries the sensors. *)
Lemma commit_only_when_decision_differs_witness :
  actuator_calls
    (snd (loop_body (builtins := ascii_builtins) (always dead_zone_env)
            (with_speed FAN_HIGH initial_state))) = []
  /\ current_speed
       (snd (loop_body (builtins := ascii_builtins) (always dead_zone_env)
               (with_speed FAN_HIGH initial_state))) = FAN_HIGH.
Proof.
  apply (commit_only_when_decision_differs
           (builtins := ascii_builtins) (always dead_zone_env)
           (with_speed FAN_HIGH initial_state) 55 20 30
           (add_call (Shell CMD_NVIDIA_SMI) (with_speed FAN_HIGH initial_state))
           (add_call (Shell CMD_NVIDIA_SMI) (with_speed FAN_HIGH initial_state))
           FAN_HIGH REASON_MAINTAIN).
  - vm_compute. reflexivity.
  - vm_compute. reflexivity.
  - vm_compute. reflexivity.
  - reflexivity.
Defined.

(** ** Shutdown *)

Section Shutdown.

Context {builtins : PyBuiltins}.
Variable w : world.

(** [restore_auto_fan] always returns, having sent its one command. *)
Lemma restore_auto_fan_returns st :
  exists st',
    restore_auto_fan w st = (Ok tt, st') /\
    calls st' = calls st ++ [Shell CMD_AUTO].
Proof.
  unfold restore_auto_fan, try_except, bind.
  destruct (run_command_cases w CMD_AUTO false st)
    as (r & st1 & Hrun & Hr & Hcalls & _).
  rewrite Hrun.
  destruct r as [o | [e | | ] | ]; try contradiction; cbn;
    eexists; split; try reflexivity; exact Hcalls.
Qed.

(** [check_commands] returns, exits with status 1, or lets an exception of
    [which] through. *)
Lemma check_commands_loop_cases required_commands : forall st,
  startup_result (fst (check_commands_loop w required_commands st)).
Proof.
  induction required_commands as [ | cmd rest IH]; intros st.
  - exact I.
  - cbn [check_commands_loop].
    unfold bind at 1, try_except, bind at 1, subprocess_run.
    destruct (proc (w (clock st)) (Argv ["which"; cmd])) as [rc out | e].
    + destruct (rc =? 0); cbn.
      * apply IH.
      * unfold bind at 1, logger at 1.
        destruct (String.eqb cmd "ipmitool"); [reflexivity | ].
        destruct (String.eqb cmd "nvidia-smi"); reflexivity.
    + destruct e; cbn; try exact I.
      unfold bind at 1, logger at 1.
      destruct (String.eqb cmd "ipmitool"); [reflexivity | ].
      destruct (String.eqb cmd "nvidia-smi"); reflexivity.
Qed.


(** One iteration of the loop returns or raises an [Exception]. *)
Lemma loop_body_benign : benign (loop_body w).
Proof.
  unfold loop_body.
  apply benign_bind.
  { intros st. destruct (get_gpu_data_returns w st)
      as (t & u & st' & Hgpu & _). rewrite Hgpu. exact I. }
  intros [gpu_temp gpu_util]. apply benign_bind.
  { intros st. destruct (get_cpu_temp_cases w st)
      as [(v & st' & Hcpu & _) | (e & _ & _ & Hraise)].
    - rewrite Hcpu. exact I.
    - rewrite Hraise. exact I. }
  intros cpu_temp. apply benign_bind; [apply benign_logger | intros _].
  apply benign_bind.
  { intros st.
    destruct (determine_fan_speed_pure gpu_temp cpu_temp gpu_util st)
      as (d & Hd). rewrite Hd. exact I. }
  intros [new_speed reason]. apply benign_bind; [intros st; exact I | ].
  intros current. apply benign_bind; [ | intros _ st; exact I].
  destruct (negb (new_speed =? current)); [ | apply benign_ret].
  intros st. destruct (set_fan_speed_effect w new_speed reason st)
    as (st' & more & Hset & _). rewrite Hset. exact I.
Qed.




(** From the moment [cleanup] starts, three steps end the process with
    status 0, and [restore_auto_fan] is entered once more; the controller
    ends in the state [cleanup] leaves. *)
Lemma cleanup_steps st n :
  exists st',
    cleanup w st = (Raise (SystemExit 0), st') /\
    exec w (mkProcess CleanupLogging st n) [Advance; Advance; Advance]
    = mkProcess (Stopped 0) st' (S n).
Proof.
  destruct (restore_auto_fan_returns (add_log LvInfo MsgCaughtSignal st))
    as (st' & Hrestore & _).
  exists st'. split.
  - unfold cleanup, bind, logger. rewrite Hrestore. reflexivity.
  - cbn [exec fold_left step].
    change (advance w (mkProcess CleanupLogging st n))
      with (mkProcess CleanupRestoring (add_log LvInfo MsgCaughtSignal st)
              (S n)).
    assert (Hstep :
              advance w (mkProcess CleanupRestoring
                           (add_log LvInfo MsgCaughtSignal st) (S n))
              = mkProcess CleanupExiting st' (S n))
      by (unfold advance; cbn [where_ ctl restores]; rewrite Hrestore;
          reflexivity).
    rewrite Hstep. reflexivity.
Qed.


(** *** The process model follows [run]

    Without signals the steps of the process retrace [run]: whenever [run]
    ends in [sys.exit], so does the process, with the same status and the
    same controller state. *)

Lemma exec_loop_follows_run cycles : forall st n code st',
  try_except (while_true w cycles) (except_run w) st
  = (Raise (SystemExit code), st') ->
  exists k,
    exec w (mkProcess Running st n) (repeat Advance k)
    = mkProcess (Stopped code) st' (S n).
Proof.
  induction cycles as [ | cycles IH]; intros st n code st' Hrun.
  - discriminate Hrun.
  - unfold try_except in Hrun. cbn [while_true] in Hrun.
    unfold bind at 1 in Hrun.
    pose proof (loop_body_benign st) as Hbody.
    destruct (loop_body w st) as [[[] | [e | | c] | ] st1] eqn:Hloop;
      cbn in Hbody; try contradiction.
    + destruct (IH st1 n code st' Hrun) as (k & Hk).
      exists (S k). cbn [repeat].
      change (exec w ?p (Advance :: ?l)) with (exec w (advance w p) l).
      unfold advance at 1. cbn [where_ ctl restores]. rewrite Hloop.
      exact Hk.
    + cbn [except_run] in Hrun. unfold bind at 1, logger at 1 in Hrun.
      destruct (cleanup_steps (add_log LvError (MsgUnexpected e) st1) n)
        as (st2 & Hcleanup & Hexec).
      rewrite Hcleanup in Hrun. inversion Hrun; subst code st'.
      exists 4%nat. cbn [repeat].
      change (exec w ?p (Advance :: ?l)) with (exec w (advance w p) l).
      unfold advance at 1. cbn [where_ ctl restores]. rewrite Hloop.
      exact Hexec.
Qed.

Lemma run_from_startup cycles st :
  run w cycles st
  = match run w 0 st with
    | (Unfinished, st0) =>
        try_except (while_true w cycles) (except_run w) st0
    | other => other
    end.
Proof.
  pose proof (check_commands_loop_cases ["ipmitool"; "nvidia-smi"] st)
    as Hcheck.
  change (startup_result (fst (check_commands w st))) in Hcheck.
  unfold run, bind. cbv beta.
  destruct (check_commands w st) as [[[] | r | ] st0];
    cbn in Hcheck; try contradiction; [ | reflexivity].
  unfold logger, get_current_speed.
  destruct (set_fan_speed_effect w
              (current_speed (add_log LvInfo MsgStarting st0))
              "initial setting" (add_log LvInfo MsgStarting st0))
    as (st1 & more & Hset & _).
  rewrite Hset. reflexivity.
Qed.

Lemma exec_follows_run cycles st code st' :
  run w cycles st = (Raise (SystemExit code), st') ->
  exists k n,
    exec w (mkProcess Starting st 0) (repeat Advance k)
    = mkProcess (Stopped code) st' n.
Proof.
  intros Hrun. rewrite run_from_startup in Hrun.
  destruct (run w 0 st) as [[a | r | ] st0] eqn:Hstart.
  - discriminate Hrun.
  - inversion Hrun; subst r st0.
    exists 1%nat, 0%nat. cbn [repeat exec fold_left step].
    unfold advance. cbn [where_ ctl restores]. rewrite Hstart. reflexivity.
  - destruct (exec_loop_follows_run cycles st0 0 code st' Hrun) as (k & Hk).
    exists (S k), 1%nat. cbn [repeat].
    change (exec w ?p (Advance :: ?l)) with (exec w (advance w p) l).
    unfold advance at 1. cbn [where_ ctl restores]. rewrite Hstart. exact Hk.
Qed.


End Shutdown.



(** ** Further properties of the threshold policy *)

Ltac policy_compare :=
  rewrite ?Z.geb_leb;
  repeat match goal with
         | |- context [?a <=? ?b] => destruct (Z.leb_spec a b); cbn [orb andb]
         | |- context [?a <? ?b] => destruct (Z.ltb_spec a b); cbn [orb andb]
         end.

(** X1: a temperature at or above a HIGH threshold never gets less than
    [FAN_HIGH], and a temperature at or above a MEDIUM threshold or a
    utilization at or above [UTIL_HIGH] never gets less than [FAN_MEDIUM],
    whatever the current level. *)
Theorem decision_floor gpu_temp cpu_temp gpu_util st new_speed reason :
  fst (determine_fan_speed gpu_temp cpu_temp gpu_util st)
  = Ok (new_speed, reason) ->
  (gpu_temp >= GPU_TEMP_HIGH \/ cpu_temp >= CPU_TEMP_HIGH ->
   FAN_HIGH <= new_speed)
  /\
  (gpu_temp >= GPU_TEMP_MEDIUM \/ cpu_temp >= CPU_TEMP_MEDIUM
   \/ gpu_util >= UTIL_HIGH ->
   FAN_MEDIUM <= new_speed).
Proof.
  unfold determine_fan_speed. policy_compare;
    cbn; intros Hd; inversion Hd; subst;
    unfold FAN_MAX, FAN_HIGH, FAN_MEDIUM, FAN_DEFAULT;
    policy_thresholds; lia.
Qed.

(** A busy GPU at moderate temperatures: (gpu=40, cpu=30, util=95). *)
Lemma decision_floor_witness :
  fst (determine_fan_speed 40 30 95 initial_state)
  = Ok (FAN_MEDIUM, REASON_MEDIUM)
  /\ 95 >= UTIL_HIGH
  /\ FAN_MEDIUM <= FAN_MEDIUM.
Proof.
  assert (Hd : fst (determine_fan_speed 40 30 95 initial_state)
               = Ok (FAN_MEDIUM, REASON_MEDIUM)) by reflexivity.
  assert (Hu : 95 >= UTIL_HIGH) by (policy_thresholds; lia).
  repeat split; try assumption.
  apply (decision_floor 40 30 95 initial_state FAN_MEDIUM REASON_MEDIUM Hd).
  right. right. exact Hu.
Defined.

(** X2: the policy raises the level no further than the rules call for:
    with both temperatures below the HIGH thresholds the decision is at
    most [FAN_MEDIUM] or the current level, and with both below the
    CRITICAL thresholds at most [FAN_HIGH] or the current level.  In
    particular utilization alone never takes the fans beyond
    [FAN_MEDIUM]. *)
Theorem decision_ceiling gpu_temp cpu_temp gpu_util st new_speed reason :
  fst (determine_fan_speed gpu_temp cpu_temp gpu_util st)
  = Ok (new_speed, reason) ->
  (gpu_temp < GPU_TEMP_HIGH /\ cpu_temp < CPU_TEMP_HIGH ->
   new_speed <= Z.max FAN_MEDIUM (current_speed st))
  /\
  (gpu_temp < GPU_TEMP_CRITICAL /\ cpu_temp < CPU_TEMP_CRITICAL ->
   new_speed <= Z.max FAN_HIGH (current_speed st)).
Proof.
  unfold determine_fan_speed. policy_compare;
    cbn; intros Hd; inversion Hd; subst;
    unfold FAN_MAX, FAN_HIGH, FAN_MEDIUM, FAN_DEFAULT;
    policy_thresholds; lia.
Qed.

(** A saturated GPU at moderate temperatures: (gpu=40, cpu=30, util=100)
    at DEFAULT goes to MEDIUM and no further. *)
Lemma decision_ceiling_witness :
  fst (determine_fan_speed 40 30 100 initial_state)
  = Ok (FAN_MEDIUM, REASON_MEDIUM)
  /\ (40 < GPU_TEMP_HIGH /\ 30 < CPU_TEMP_HIGH)
  /\ FAN_MEDIUM <= Z.max FAN_MEDIUM (current_speed initial_state).
Proof.
  assert (Hd : fst (determine_fan_speed 40 30 100 initial_state)
               = Ok (FAN_MEDIUM, REASON_MEDIUM)) by reflexivity.
  assert (Ht : 40 < GPU_TEMP_HIGH /\ 30 < CPU_TEMP_HIGH)
    by (policy_thresholds; lia).
  repeat split; try apply Ht; try assumption.
  apply (decision_ceiling 40 30 100 initial_state FAN_MEDIUM REASON_MEDIUM Hd).
  exact Ht.
Defined.

(** X3: the rules below the critical one apply in order.  Short of a
    critical temperature, a HIGH temperature gives [FAN_HIGH]; short of
    that, a MEDIUM temperature or a HIGH utilization gives [FAN_MEDIUM];
    and telemetry below all three LOW thresholds gives [FAN_DEFAULT],
    whatever the current level. *)
Theorem rules_apply_in_order gpu_temp cpu_temp gpu_util st :
  gpu_temp < GPU_TEMP_CRITICAL -> cpu_temp < CPU_TEMP_CRITICAL ->
  (gpu_temp >= GPU_TEMP_HIGH \/ cpu_temp >= CPU_TEMP_HIGH ->
   determine_fan_speed gpu_temp cpu_temp gpu_util st
   = (Ok (FAN_HIGH, REASON_HIGH gpu_temp cpu_temp), st))
  /\
  (gpu_temp < GPU_TEMP_HIGH -> cpu_temp < CPU_TEMP_HIGH ->
   gpu_temp >= GPU_TEMP_MEDIUM \/ cpu_temp >= CPU_TEMP_MEDIUM
   \/ gpu_util >= UTIL_HIGH ->
   determine_fan_speed gpu_temp cpu_temp gpu_util st
   = (Ok (FAN_MEDIUM, "MEDIUM temperature or HIGH utilization"%string), st))
  /\
  (gpu_temp < GPU_TEMP_LOW -> cpu_temp < CPU_TEMP_LOW ->
   gpu_util < UTIL_LOW ->
   determine_fan_speed gpu_temp cpu_temp gpu_util st
   = (Ok (FAN_DEFAULT, "LOW temperatures and utilization"%string), st)).
Proof.
  intros Hg Hc. unfold determine_fan_speed.
  repeat split; intros; policy_compare; try reflexivity;
    exfalso; policy_thresholds; lia.
Qed.

(** Scenario 4 of the specification: (gpu=65, cpu=30, util=10). *)
Lemma rules_apply_in_order_witness :
  determine_fan_speed 65 30 10 initial_state
  = (Ok (FAN_MEDIUM, "MEDIUM temperature or HIGH utilization"%string),
     initial_state).
Proof.
  apply (rules_apply_in_order 65 30 10 initial_state);
    policy_thresholds; lia.
Defined.

(** ** Further properties of the commands *)

Section CommandEffects.

Context {builtins : PyBuiltins}.
Variable w : world.

(** The division of line 107 in terms of magnitudes. *)
Lemma true_divide_fits a b :
  true_divide_overflows a b = false <-> Z.abs a < Z.abs b * DBL_OVERFLOW.
Proof.
  unfold true_divide_overflows. rewrite Z.geb_leb. apply Z.leb_gt.
Qed.

Lemma true_divide_too_large a b :
  true_divide_overflows a b = true <-> Z.abs a >= Z.abs b * DBL_OVERFLOW.
Proof.
  unfold true_divide_overflows. rewrite Z.geb_leb, Z.leb_le. lia.
Qed.

(** The percentage of each of the four levels can be computed. *)
Lemma fan_levels_fit v :
  In v fan_levels -> true_divide_overflows v 0x64 = false.
Proof.
  intros [<- | [<- | [<- | [<- | []]]]]; vm_compute; reflexivity.
Qed.

(** The two IPMI commands of [set_fan_speed], both running to completion,
    followed by whatever comes next. *)
Lemma set_fan_speed_after_commands speed_hex reason st rc1 out1 rc2 out2 :
  proc (w (clock st)) (Shell CMD_MANUAL) = Completed rc1 out1 ->
  proc (w (clock st)) (Shell (CMD_SPEED speed_hex)) = Completed rc2 out2 ->
  exists st2,
    calls st2 = calls st ++ [Shell CMD_MANUAL; Shell (CMD_SPEED speed_hex)] /\
    current_speed st2 = current_speed st /\
    clock st2 = clock st /\
    set_fan_speed w speed_hex reason st
    = if true_divide_overflows speed_hex 0x64
      then (Ok tt, add_log LvError (MsgFailedSetFanSpeed OverflowError) st2)
      else (Ok tt,
            with_speed speed_hex
              (add_log LvInfo (MsgFanSpeedSet speed_hex reason) st2)).
Proof.
  intros H1 H2.
  unfold set_fan_speed, try_except, bind, percentage.
  destruct (Z.eq_dec rc1 0) as [-> | Hrc1].
  - rewrite (run_command_succeeds w _ _ _ _ H1).
    destruct (Z.eq_dec rc2 0) as [-> | Hrc2].
    + rewrite (run_command_succeeds w _ false (add_call _ st) out2)
        by exact H2.
      eexists. split; [ | split; [ | split]].
      4: destruct (true_divide_overflows speed_hex 100); reflexivity.
      all: cbn; rewrite <- ?app_assoc; reflexivity.
    + rewrite (run_command_fails w _ false (add_call _ st) rc2 out2)
        by (exact H2 || exact Hrc2).
      eexists. split; [ | split; [ | split]].
      4: destruct (true_divide_overflows speed_hex 100); reflexivity.
      all: cbn; rewrite <- ?app_assoc; reflexivity.
  - rewrite (run_command_fails w _ _ _ _ _ H1 Hrc1).
    destruct (Z.eq_dec rc2 0) as [-> | Hrc2].
    + rewrite (run_command_succeeds w _ false (add_log _ _ _) out2)
        by exact H2.
      eexists. split; [ | split; [ | split]].
      4: destruct (true_divide_overflows speed_hex 100); reflexivity.
      all: cbn; rewrite <- ?app_assoc; reflexivity.
    + rewrite (run_command_fails w _ false (add_log _ _ _) rc2 out2)
        by (exact H2 || exact Hrc2).
      eexists. split; [ | split; [ | split]].
      4: destruct (true_divide_overflows speed_hex 100); reflexivity.
      all: cbn; rewrite <- ?app_assoc; reflexivity.
Qed.

(** Whatever the level, the two commands are what [set_fan_speed] spawns. *)
Lemma set_fan_speed_calls speed_hex reason st rc1 out1 rc2 out2 :
  proc (w (clock st)) (Shell CMD_MANUAL) = Completed rc1 out1 ->
  proc (w (clock st)) (Shell (CMD_SPEED speed_hex)) = Completed rc2 out2 ->
  fst (set_fan_speed w speed_hex reason st) = Ok tt /\
  calls (snd (set_fan_speed w speed_hex reason st))
  = calls st ++ [Shell CMD_MANUAL; Shell (CMD_SPEED speed_hex)] /\
  clock (snd (set_fan_speed w speed_hex reason st)) = clock st.
Proof.
  intros H1 H2.
  destruct (set_fan_speed_after_commands speed_hex reason st _ _ _ _ H1 H2)
    as (st2 & Hcalls & _ & Hclock & Hset).
  rewrite Hset.
  destruct (true_divide_overflows speed_hex 100); cbn; auto.
Qed.

Lemma set_fan_speed_when_complete speed_hex reason st rc1 out1 rc2 out2 :
  proc (w (clock st)) (Shell CMD_MANUAL) = Completed rc1 out1 ->
  proc (w (clock st)) (Shell (CMD_SPEED speed_hex)) = Completed rc2 out2 ->
  true_divide_overflows speed_hex 0x64 = false ->
  fst (set_fan_speed w speed_hex reason st) = Ok tt /\
  calls (snd (set_fan_speed w speed_hex reason st))
  = calls st ++ [Shell CMD_MANUAL; Shell (CMD_SPEED speed_hex)] /\
  current_speed (snd (set_fan_speed w speed_hex reason st)) = speed_hex /\
  clock (snd (set_fan_speed w speed_hex reason st)) = clock st /\
  exists earlier,
    log (snd (set_fan_speed w speed_hex reason st))
    = earlier ++ [(LvInfo, MsgFanSpeedSet speed_hex reason)].
Proof.
  intros H1 H2 Hfits.
  destruct (set_fan_speed_after_commands speed_hex reason st _ _ _ _ H1 H2)
    as (st2 & Hcalls & _ & Hclock & Hset).
  rewrite Hset. change (Z.pos 100) with 100 in Hfits.
  rewrite Hfits. cbn. repeat split; try assumption.
  eexists. reflexivity.
Qed.

(** X4: when both IPMI commands run to completion, whatever their exit
    status, [set_fan_speed] returns normally, having sent the manual-mode
    command and then the duty-cycle command.  If the magnitude of
    [speed_hex] is below [100 * DBL_OVERFLOW], so that the percentage of
    line 107 can be computed, it has stored the new level and its last
    log record announces the new speed; otherwise the division raises
    [OverflowError], the last log record is "Failed to set fan speed" and
    [current_speed] is as it was. *)
Theorem set_fan_speed_commits_when_commands_complete
  speed_hex reason st rc1 out1 rc2 out2 :
  proc (w (clock st)) (Shell CMD_MANUAL) = Completed rc1 out1 ->
  proc (w (clock st)) (Shell (CMD_SPEED speed_hex)) = Completed rc2 out2 ->
  fst (set_fan_speed w speed_hex reason st) = Ok tt /\
  calls (snd (set_fan_speed w speed_hex reason st))
  = calls st ++ [Shell CMD_MANUAL; Shell (CMD_SPEED speed_hex)] /\
  clock (snd (set_fan_speed w speed_hex reason st)) = clock st /\
  (Z.abs speed_hex < 100 * DBL_OVERFLOW ->
   current_speed (snd (set_fan_speed w speed_hex reason st)) = speed_hex /\
   exists earlier,
     log (snd (set_fan_speed w speed_hex reason st))
     = earlier ++ [(LvInfo, MsgFanSpeedSet speed_hex reason)]) /\
  (Z.abs speed_hex >= 100 * DBL_OVERFLOW ->
   current_speed (snd (set_fan_speed w speed_hex reason st))
   = current_speed st /\
   exists earlier,
     log (snd (set_fan_speed w speed_hex reason st))
     = earlier ++ [(LvError, MsgFailedSetFanSpeed OverflowError)]).
Proof.
  intros H1 H2.
  destruct (set_fan_speed_calls speed_hex reason st _ _ _ _ H1 H2)
    as (Hok & Hcalls & Hclock).
  repeat split; try assumption.
  - apply set_fan_speed_when_complete with rc1 out1 rc2 out2; try assumption.
    apply true_divide_fits. exact H.
  - destruct (set_fan_speed_when_complete speed_hex reason st _ _ _ _ H1 H2)
      as (_ & _ & _ & _ & Hlog); [ | exact Hlog].
    apply true_divide_fits. exact H.
  - destruct (set_fan_speed_after_commands speed_hex reason st _ _ _ _ H1 H2)
      as (st2 & _ & Hspeed & _ & Hset).
    rewrite Hset.
    replace (true_divide_overflows speed_hex 100) with true
      by (symmetry; apply true_divide_too_large; exact H).
    exact Hspeed.
  - destruct (set_fan_speed_after_commands speed_hex reason st _ _ _ _ H1 H2)
      as (st2 & _ & _ & _ & Hset).
    rewrite Hset.
    replace (true_divide_overflows speed_hex 100) with true
      by (symmetry; apply true_divide_too_large; exact H).
    eexists. reflexivity.
Qed.

(** X5: when [subprocess.run] itself raises an exception other than
    [CalledProcessError], [set_fan_speed] logs "Failed to set fan speed"
    and returns with [current_speed] as it was; if the manual-mode command
    is the one that raises, the duty-cycle command is not sent. *)
Theorem set_fan_speed_keeps_level_when_spawn_raises
  speed_hex reason st e :
  (forall rc cmd, e <> CalledProcessError rc cmd) ->
  (proc (w (clock st)) (Shell CMD_MANUAL) = SpawnRaises e ->
   set_fan_speed w speed_hex reason st
   = (Ok tt,
      add_log LvError (MsgFailedSetFanSpeed e)
        (add_call (Shell CMD_MANUAL) st)))
  /\
  (forall rc out,
     proc (w (clock st)) (Shell CMD_MANUAL) = Completed rc out ->
     proc (w (clock st)) (Shell (CMD_SPEED speed_hex)) = SpawnRaises e ->
     fst (set_fan_speed w speed_hex reason st) = Ok tt /\
     current_speed (snd (set_fan_speed w speed_hex reason st))
     = current_speed st /\
     calls (snd (set_fan_speed w speed_hex reason st))
     = calls st ++ [Shell CMD_MANUAL; Shell (CMD_SPEED speed_hex)] /\
     exists earlier,
       log (snd (set_fan_speed w speed_hex reason st))
       = earlier ++ [(LvError, MsgFailedSetFanSpeed e)]).
Proof.
  intros Hne. split.
  - intros H1. unfold set_fan_speed, try_except, bind at 1.
    rewrite (run_command_spawn_raises w _ _ _ _ H1 Hne). reflexivity.
  - intros rc out H1 H2. unfold set_fan_speed, try_except, bind.
    destruct (Z.eq_dec rc 0) as [-> | Hrc].
    + rewrite (run_command_succeeds w _ _ _ _ H1).
      rewrite (run_command_spawn_raises w _ false (add_call _ st) e)
        by (exact H2 || exact Hne).
      cbn. rewrite <- app_assoc. repeat split. eexists. reflexivity.
    + rewrite (run_command_fails w _ _ _ _ _ H1 Hrc).
      rewrite (run_command_spawn_raises w _ false (add_log _ _ _) e)
        by (exact H2 || exact Hne).
      cbn. rewrite <- app_assoc. repeat split. eexists. reflexivity.
Qed.

Lemma cleanup_exits st :
  exists st',
    cleanup w st = (Raise (SystemExit 0), st') /\
    calls st' = calls st ++ [Shell CMD_AUTO] /\
    current_speed st' = current_speed st /\
    clock st' = clock st.
Proof.
  unfold cleanup, bind at 1, logger at 1, bind at 1.
  unfold restore_auto_fan, try_except, bind.
  destruct (run_command_cases w CMD_AUTO false
              (add_log LvInfo MsgCaughtSignal st))
    as (r & st1 & Hrun & Hr & Hcalls & Hspeed & Hclock).
  rewrite Hrun.
  destruct r as [o | [e | | ] | ]; try contradiction; cbn;
    eexists; repeat split; cbn; assumption.
Qed.

(** X6: [cleanup] always ends in [sys.exit(0)], whether the command that
    restores automatic control succeeds, fails or cannot be spawned; it
    sends that one command and leaves [current_speed] and the clock
    alone. *)
Theorem cleanup_always_exits_with_status_0 st :
  exists st',
    cleanup w st = (Raise (SystemExit 0), st') /\
    calls st' = calls st ++ [Shell CMD_AUTO] /\
    current_speed st' = current_speed st /\
    clock st' = clock st.
Proof. apply cleanup_exits. Qed.

(** [check_commands] with both tools present. *)
Lemma check_commands_found st out1 out2 :
  proc (w (clock st)) (WHICH "ipmitool") = Completed 0 out1 ->
  proc (w (clock st)) (WHICH "nvidia-smi") = Completed 0 out2 ->
  check_commands w st
  = (Ok tt, add_call (WHICH "nvidia-smi") (add_call (WHICH "ipmitool") st)).
Proof.
  intros H1 H2. unfold check_commands, WHICH in *.
  cbn [check_commands_loop].
  unfold bind, try_except, subprocess_run. cbn [clock add_call].
  rewrite H1. cbn. rewrite H2. reflexivity.
Qed.

(** [check_commands] touches neither the level nor the BMC. *)
Lemma check_commands_frame st :
  sensor_frame st (snd (check_commands w st)).
Proof.
  unfold check_commands.
  generalize ["ipmitool"; "nvidia-smi"]%string as required_commands.
  intros required_commands. revert st.
  induction required_commands as [ | cmd rest IH]; intros st.
  - repeat split.
  - cbn [check_commands_loop].
    unfold bind at 1, try_except, bind at 1, subprocess_run.
    assert (Hcall : sensor_frame st (add_call (Argv ["which"; cmd]) st)).
    { repeat split. unfold actuator_calls, add_call. cbn [calls].
      rewrite filter_app. cbn. apply app_nil_r. }
    destruct (proc (w (clock st)) (Argv ["which"; cmd])) as [rc out | e].
    + destruct (rc =? 0); cbn.
      * specialize (IH (add_call (Argv ["which"; cmd]) st)).
        destruct Hcall as (H1 & H2 & H3), IH as (H4 & H5 & H6).
        repeat split; congruence.
      * unfold bind at 1, logger at 1.
        destruct (String.eqb cmd "ipmitool");
          [ | destruct (String.eqb cmd "nvidia-smi")]; cbn; exact Hcall.
    + destruct e; cbn; try exact Hcall.
      unfold bind at 1, logger at 1.
      destruct (String.eqb cmd "ipmitool");
        [ | destruct (String.eqb cmd "nvidia-smi")]; cbn; exact Hcall.
Qed.

(** X7: [check_commands] returns normally exactly when [which] finds both
    [ipmitool] and [nvidia-smi] (exit status 0); it has then made these
    two probes and logged nothing. *)
Theorem check_commands_passes_iff_tools_found st :
  (fst (check_commands w st) = Ok tt <->
   (exists out, proc (w (clock st)) (WHICH "ipmitool") = Completed 0 out) /\
   (exists out, proc (w (clock st)) (WHICH "nvidia-smi") = Completed 0 out))
  /\
  (fst (check_commands w st) = Ok tt ->
   snd (check_commands w st)
   = add_call (WHICH "nvidia-smi") (add_call (WHICH "ipmitool") st)).
Proof.
  unfold check_commands, WHICH. cbn [check_commands_loop].
  unfold bind, try_except, subprocess_run. cbn [clock add_call].
  destruct (proc (w (clock st)) (Argv ["which"; "ipmitool"]))
    as [rc1 out1 | e1].
  - destruct (Z.eqb_spec rc1 0) as [-> | Hrc1]; cbn.
    + destruct (proc (w (clock st)) (Argv ["which"; "nvidia-smi"]))
        as [rc2 out2 | e2].
      * destruct (Z.eqb_spec rc2 0) as [-> | Hrc2]; cbn.
        -- repeat split; eauto.
        -- split; [split | ]; try discriminate.
           intros [_ [out H]]. inversion H. contradiction.
      * split; [split | ].
        -- destruct e2; cbn; discriminate.
        -- intros [_ [out H]]. discriminate H.
        -- destruct e2; cbn; discriminate.
    + split; [split | ]; try discriminate.
      intros [[out H] _]. inversion H. contradiction.
  - split; [split | ].
    + destruct e1; cbn; discriminate.
    + intros [[out H] _]. discriminate H.
    + destruct e1; cbn; discriminate.
Qed.

(** X8: when [which] does not find a required tool, [run] exits with
    status 1 having made nothing but its probes: no sensor is read, no
    command goes to the BMC, and [current_speed] is as it was. *)
Theorem run_exits_before_bmc_when_tool_missing cycles st rc out :
  rc <> 0 ->
  (proc (w (clock st)) (WHICH "ipmitool") = Completed rc out ->
   fst (run w cycles st) = Raise (SystemExit 1) /\
   calls (snd (run w cycles st)) = calls st ++ [WHICH "ipmitool"] /\
   current_speed (snd (run w cycles st)) = current_speed st /\
   log (snd (run w cycles st))
   = log st ++ [(LvError, MsgRequired "ipmitool");
                (LvError, MsgInstallIpmitool)])
  /\
  (forall out0,
     proc (w (clock st)) (WHICH "ipmitool") = Completed 0 out0 ->
     proc (w (clock st)) (WHICH "nvidia-smi") = Completed rc out ->
     fst (run w cycles st) = Raise (SystemExit 1) /\
     calls (snd (run w cycles st))
     = calls st ++ [WHICH "ipmitool"; WHICH "nvidia-smi"] /\
     current_speed (snd (run w cycles st)) = current_speed st /\
     log (snd (run w cycles st))
     = log st ++ [(LvError, MsgRequired "nvidia-smi");
                  (LvError, MsgInstallNvidia)]).
Proof.
  intros Hrc. apply Z.eqb_neq in Hrc.
  unfold run, check_commands, WHICH. cbn [check_commands_loop].
  split.
  - intros H1. unfold bind, try_except, subprocess_run.
    cbn [clock add_call]. rewrite H1, Hrc. cbn.
    rewrite <- app_assoc. repeat split.
  - intros out0 H1 H2. unfold bind, try_except, subprocess_run.
    cbn [clock add_call]. rewrite H1. cbn. rewrite H2, Hrc. cbn.
    rewrite <- !app_assoc. repeat split.
Qed.

End CommandEffects.

Lemma set_fan_speed_commits_when_commands_complete_witness :
  calls (snd (set_fan_speed (builtins := ascii_builtins)
                (always bmc_rejects_max) FAN_MAX "CRITICAL" initial_state))
  = [Shell CMD_MANUAL; Shell (CMD_SPEED FAN_MAX)]
  /\ current_speed
       (snd (set_fan_speed (builtins := ascii_builtins)
               (always bmc_rejects_max) FAN_MAX "CRITICAL" initial_state))
     = FAN_MAX.
Proof.
  assert (Hfits : Z.abs FAN_MAX < 100 * DBL_OVERFLOW)
    by (vm_compute; reflexivity).
  pose proof (set_fan_speed_commits_when_commands_complete
                (builtins := ascii_builtins) (always bmc_rejects_max)
                FAN_MAX "CRITICAL" initial_state 0 EmptyString 1 EmptyString
                eq_refl eq_refl)
    as (_ & Hcalls & _ & Hstored & _).
  split; [exact Hcalls | apply (Hstored Hfits)].
Defined.

Lemma set_fan_speed_keeps_level_when_spawn_raises_witness :
  set_fan_speed (builtins := ascii_builtins) (always no_shell)
    FAN_HIGH "HIGH" initial_state
  = (Ok tt,
     mkState FAN_DEFAULT 0 [(LvError, MsgFailedSetFanSpeed OSError)]
       [Shell CMD_MANUAL]).
Proof.
  apply (set_fan_speed_keeps_level_when_spawn_raises
           (builtins := ascii_builtins) (always no_shell)
           FAN_HIGH "HIGH" initial_state OSError).
  - intros rc cmd. discriminate.
  - reflexivity.
Defined.

Lemma run_exits_before_bmc_when_tool_missing_witness :
  fst (run (builtins := ascii_builtins) (always nvidia_smi_missing)
         3 initial_state) = Raise (SystemExit 1)
  /\ calls (snd (run (builtins := ascii_builtins) (always nvidia_smi_missing)
                   3 initial_state))
     = [WHICH "ipmitool"; WHICH "nvidia-smi"].
Proof.
  assert (Hrc : 1 <> 0) by lia.
  pose proof (run_exits_before_bmc_when_tool_missing
                (builtins := ascii_builtins) (always nvidia_smi_missing)
                3 initial_state 1 EmptyString Hrc) as (_ & Hmissing).
  destruct (Hmissing EmptyString eq_refl eq_refl) as (Hexit & Hcalls & _).
  split; [exact Hexit | exact Hcalls].
Defined.

(** ** Invariants of the controller *)

Lemma preserves_ret {A} Inv (a : A) : preserves Inv (ret a).
Proof. intros st H. exact H. Qed.

Lemma preserves_raise {A} Inv r : preserves Inv (raise (A := A) r).
Proof. intros st H. exact H. Qed.

Lemma preserves_bind {A B} Inv (m : M A) (k : A -> M B) :
  preserves Inv m -> (forall a, preserves Inv (k a)) ->
  preserves Inv (bind m k).
Proof.
  intros Hm Hk st H. unfold bind. specialize (Hm st H).
  destruct (m st) as [[a | r | ] st']; cbn in *; try exact Hm.
  apply Hk. exact Hm.
Qed.

Lemma preserves_try_except {A} Inv (m : M A) handlers :
  preserves Inv m ->
  (forall r h, handlers r = Some h -> preserves Inv h) ->
  preserves Inv (try_except m handlers).
Proof.
  intros Hm Hh st H. unfold try_except. specialize (Hm st H).
  destruct (m st) as [[a | r | ] st']; cbn in *; try exact Hm.
  destruct (handlers r) as [h | ] eqn:Hr; cbn; [ | exact Hm].
  eapply Hh; eassumption.
Qed.

Lemma preserves_except_Exception {A} Inv (handler : exn -> M A) :
  (forall e, preserves Inv (handler e)) ->
  forall r h, except_Exception handler r = Some h -> preserves Inv h.
Proof.
  intros Hh r h Hr. destruct r; cbn in Hr; try discriminate.
  inversion Hr. apply Hh.
Qed.

Lemma preserves_except_CalledProcessError {A} Inv (handler : exn -> M A) :
  (forall e, preserves Inv (handler e)) ->
  forall r h, except_CalledProcessError handler r = Some h -> preserves Inv h.
Proof.
  intros Hh r h Hr. destruct r as [e | | ]; cbn in Hr; try discriminate.
  destruct e; cbn in Hr; try discriminate. inversion Hr. apply Hh.
Qed.

Section StableInvariants.

Context {builtins : PyBuiltins}.
Variable w : world.
Variable Inv : state -> Prop.
Hypothesis Inv_stable : stable Inv.

Lemma preserves_logger lv msg : preserves Inv (logger lv msg).
Proof. intros st H. apply Inv_stable. exact H. Qed.

Lemma preserves_time_sleep : preserves Inv time_sleep.
Proof. intros st H. apply Inv_stable. exact H. Qed.

Lemma preserves_subprocess_run inv : preserves Inv (subprocess_run w inv).
Proof.
  intros st H. unfold subprocess_run.
  assert (Hcall : Inv (add_call inv st)) by (apply Inv_stable; exact H).
  destruct (proc (w (clock st)) inv) as [rc out | e];
    [destruct (rc =? 0) | ]; exact Hcall.
Qed.

Ltac preserve_step :=
  first
    [ apply preserves_ret
    | apply preserves_raise
    | apply preserves_logger
    | apply preserves_time_sleep
    | apply preserves_subprocess_run
    | apply preserves_bind; [ | intros ? ]
    | apply preserves_try_except
    | apply preserves_except_Exception; intros ?
    | apply preserves_except_CalledProcessError; intros ? ].

Lemma preserves_run_command command capture_output :
  preserves Inv (run_command w command capture_output).
Proof. unfold run_command. repeat preserve_step. Qed.

Lemma preserves_check_commands : preserves Inv (check_commands w).
Proof.
  unfold check_commands.
  generalize ["ipmitool"; "nvidia-smi"]%string as required_commands.
  induction required_commands as [ | cmd rest IH]; cbn [check_commands_loop].
  - apply preserves_ret.
  - apply preserves_bind; [ | intros _; exact IH].
    unfold sys_exit. repeat preserve_step.
    destruct (String.eqb cmd "ipmitool"); [apply preserves_logger | ].
    destruct (String.eqb cmd "nvidia-smi");
      [apply preserves_logger | apply preserves_ret].
Qed.

Lemma preserves_set_fan_speed speed_hex reason :
  admits Inv speed_hex ->
  preserves Inv (set_fan_speed w speed_hex reason).
Proof.
  intros Hadmits. unfold set_fan_speed.
  apply preserves_try_except.
  - apply preserves_bind; [apply preserves_run_command | intros _].
    apply preserves_bind; [apply preserves_run_command | intros _].
    apply preserves_bind.
    { unfold percentage.
      destruct (true_divide_overflows speed_hex 100);
        [apply preserves_raise | apply preserves_ret]. }
    intros _.
    apply preserves_bind; [apply preserves_logger | intros _].
    intros st H. apply Hadmits. exact H.
  - repeat preserve_step.
Qed.

Lemma preserves_restore_auto_fan : preserves Inv (restore_auto_fan w).
Proof.
  unfold restore_auto_fan.
  apply preserves_try_except.
  - apply preserves_bind; [apply preserves_run_command | intros _].
    apply preserves_logger.
  - repeat preserve_step.
Qed.

Lemma preserves_cleanup : preserves Inv (cleanup w).
Proof.
  unfold cleanup, sys_exit.
  apply preserves_bind; [apply preserves_logger | intros _].
  apply preserves_bind; [apply preserves_restore_auto_fan | intros _].
  apply preserves_raise.
Qed.

Lemma preserves_get_gpu_data : preserves Inv (get_gpu_data w).
Proof.
  unfold get_gpu_data.
  apply preserves_try_except; [ | repeat preserve_step].
  apply preserves_bind; [apply preserves_run_command | intros output].
  destruct output as [text | ]; [ | apply preserves_ret].
  destruct (truthy text); [ | apply preserves_ret].
  intros st H.
  destruct (gpu_loop_cases (str_split LF text) 0 0 st)
    as [(t & u & Hok & _) | Hraise].
  - rewrite Hok. exact H.
  - rewrite Hraise. exact H.
Qed.

Lemma preserves_get_cpu_temp : preserves Inv (get_cpu_temp w).
Proof.
  unfold get_cpu_temp.
  apply preserves_bind; [intros st H; exact H | intros zones].
  apply preserves_bind.
  - intros st H.
    destruct (thermal_zone_loop_cases zones 0 st)
      as [Hok | (e & _ & _ & Hraise)].
    + rewrite Hok. exact H.
    + rewrite Hraise. exact H.
  - intros max_temp. destruct (max_temp =? 0); [ | apply preserves_ret].
    unfold sensors_fallback.
    apply preserves_bind.
    + apply preserves_try_except; [ | repeat preserve_step].
      apply preserves_bind; [apply preserves_run_command | intros ?].
      apply preserves_ret.
    + intros [max_temp' [e | ]]; repeat preserve_step.
Qed.

(** The decision is one of the four levels or the current one, and taking
    it changes nothing. *)
Lemma decision_is_level_or_current gpu_temp cpu_temp gpu_util st :
  exists new_speed reason,
    determine_fan_speed gpu_temp cpu_temp gpu_util st
    = (Ok (new_speed, reason), st) /\
    (In new_speed fan_levels \/ new_speed = current_speed st).
Proof.
  unfold determine_fan_speed, fan_levels.
  repeat match goal with
         | |- context [if ?b then _ else _] => destruct b
         end;
    do 2 eexists; (split; [reflexivity | ]); cbn; auto 6.
Qed.

Lemma preserves_loop_body :
  (forall v, In v fan_levels -> admits Inv v) ->
  preserves Inv (loop_body w).
Proof.
  intros Hlevels. unfold loop_body.
  apply preserves_bind; [apply preserves_get_gpu_data | ].
  intros [gpu_temp gpu_util].
  apply preserves_bind; [apply preserves_get_cpu_temp | intros cpu_temp].
  apply preserves_bind; [apply preserves_logger | intros _].
  intros st H. unfold bind at 1.
  destruct (decision_is_level_or_current gpu_temp cpu_temp gpu_util st)
    as (new_speed & reason & Hd & Hnew).
  rewrite Hd. unfold bind at 1, get_current_speed at 1.
  destruct (Z.eqb_spec new_speed (current_speed st)) as [Heq | Hne];
    cbn [negb].
  - cbn. apply Inv_stable. exact H.
  - destruct Hnew as [Hin | Heq]; [ | contradiction].
    apply (preserves_bind Inv (set_fan_speed w new_speed reason)
             (fun _ => time_sleep)); try exact H.
    + apply preserves_set_fan_speed. apply Hlevels. exact Hin.
    + intros _. apply preserves_time_sleep.
Qed.

Lemma preserves_while_true cycles :
  (forall v, In v fan_levels -> admits Inv v) ->
  preserves Inv (while_true w cycles).
Proof.
  intros Hlevels. induction cycles as [ | cycles IH]; cbn [while_true].
  - intros st H. exact H.
  - apply preserves_bind; [apply preserves_loop_body; exact Hlevels | ].
    intros _. exact IH.
Qed.

Lemma preserves_loop_with_handlers cycles :
  (forall v, In v fan_levels -> admits Inv v) ->
  preserves Inv (try_except (while_true w cycles) (except_run w)).
Proof.
  intros Hlevels. apply preserves_try_except.
  - apply preserves_while_true. exact Hlevels.
  - intros r h Hr. destruct r as [e | | code]; cbn in Hr;
      inversion Hr; subst h.
    + apply preserves_bind; [apply preserves_logger | intros _].
      apply preserves_cleanup.
    + apply preserves_cleanup.
Qed.

End StableInvariants.

Lemma stable_level_ok : stable level_ok.
Proof. repeat split; intros; assumption. Qed.

Lemma stable_calls_extend base : stable (calls_extend base).
Proof.
  repeat split; intros; try assumption.
  destruct H as [rest H]. exists (rest ++ [inv]).
  cbn. rewrite H. symmetry. apply app_assoc.
Qed.

Lemma with_current_speed st : with_speed (current_speed st) st = st.
Proof. destruct st. reflexivity. Qed.

Section RunInvariants.

Context {builtins : PyBuiltins}.
Variable w : world.
Variable Inv : state -> Prop.
Hypothesis Inv_stable : stable Inv.
Hypothesis Inv_levels : forall v, In v fan_levels -> admits Inv v.

(** [run] re-commits the level it starts with, which changes nothing, and
    then only stores levels chosen by the policy. *)
Lemma preserves_run cycles : preserves Inv (run w cycles).
Proof.
  unfold run.
  apply preserves_bind; [apply preserves_check_commands; exact Inv_stable | ].
  intros _. apply preserves_bind; [apply preserves_logger; exact Inv_stable | ].
  intros _ st H. unfold bind at 1, get_current_speed at 1.
  set (c := current_speed st).
  assert (Hinit :
            preserves (fun s => Inv s /\ current_speed s = c)
              (set_fan_speed w c "initial setting")).
  { apply preserves_set_fan_speed.
    - repeat split; intros; try apply Inv_stable; tauto.
    - intros s [Hs Hc]. rewrite <- Hc, with_current_speed. tauto. }
  specialize (Hinit st (conj H eq_refl)).
  unfold bind.
  destruct (set_fan_speed w c "initial setting" st) as [[[] | r | ] st1];
    cbn in *; try tauto.
  apply (preserves_loop_with_handlers w Inv Inv_stable cycles Inv_levels).
  tauto.
Qed.

End RunInvariants.

(** X9: the tracked level never leaves the four configured levels: if
    [current_speed] is one of them, it still is after any number of cycles
    of [run], in every environment and however [run] ends. *)
Theorem run_keeps_fan_level {builtins : PyBuiltins} (w : world) cycles st :
  In (current_speed st) fan_levels ->
  In (current_speed (snd (run w cycles st))) fan_levels.
Proof.
  apply (preserves_run w level_ok stable_level_ok).
  intros v Hv s _. exact Hv.
Qed.

Lemma run_keeps_fan_level_witness :
  In (current_speed
        (snd (run (builtins := ascii_builtins) (always bmc_rejects_max)
                2 initial_state))) fan_levels.
Proof.
  apply (run_keeps_fan_level (builtins := ascii_builtins)
           (always bmc_rejects_max) 2 initial_state).
  left. reflexivity.
Defined.

(** ** How [run] ends and how it begins *)

Section RunOutcome.

Context {builtins : PyBuiltins}.
Variable w : world.

(** The loop with its handlers can only exit through [cleanup]. *)
Lemma loop_exit_status cycles : forall st code st',
  try_except (while_true w cycles) (except_run w) st
  = (Raise (SystemExit code), st') ->
  code = 0 /\ exists before, calls st' = before ++ [Shell CMD_AUTO].
Proof.
  induction cycles as [ | cycles IH]; intros st code st' Hrun.
  - discriminate Hrun.
  - unfold try_except in Hrun. cbn [while_true] in Hrun.
    unfold bind at 1 in Hrun.
    pose proof (loop_body_benign w st) as Hbody.
    destruct (loop_body w st) as [[[] | [e | | c] | ] st1];
      cbn in Hbody; try contradiction.
    + apply (IH st1). exact Hrun.
    + cbn [except_run] in Hrun. unfold bind at 1, logger at 1 in Hrun.
      destruct (cleanup_exits w (add_log LvError (MsgUnexpected e) st1))
        as (st2 & Hcleanup & Hcalls & _).
      rewrite Hcleanup in Hrun. inversion Hrun; subst code st'.
      split; [reflexivity | eexists; exact Hcalls].
Qed.

(** Before the loop, [run] can only exit from [check_commands]. *)
Lemma startup_exit_status st code st0 :
  run w 0 st = (Raise (SystemExit code), st0) ->
  code = 1 /\ sensor_frame st st0.
Proof.
  unfold run. unfold bind at 1.
  pose proof (check_commands_loop_cases w ["ipmitool"; "nvidia-smi"] st)
    as Hcheck.
  change (startup_result (fst (check_commands w st))) in Hcheck.
  pose proof (check_commands_frame w st) as Hframe.
  destruct (check_commands w st) as [[[] | r | ] st1]; cbn in Hcheck, Hframe.
  - unfold bind at 1, logger at 1. unfold bind at 1, get_current_speed at 1.
    unfold bind at 1.
    destruct (set_fan_speed_effect w
                (current_speed (add_log LvInfo MsgStarting st1))
                "initial setting" (add_log LvInfo MsgStarting st1))
      as (st2 & more & Hset & _).
    rewrite Hset. discriminate.
  - intros Hrun. inversion Hrun; subst r st0.
    split; [exact Hcheck | exact Hframe].
  - contradiction.
Qed.

(** X10: [run] exits with status 1 or 0 only.  Status 1 comes from the
    check of the required tools, before any command has gone to the BMC;
    status 0 comes from [cleanup], after an unexpected error of the loop
    as well, and the last command sent is then the one that restores
    automatic fan control. *)
Theorem run_exit_status cycles st code st' :
  run w cycles st = (Raise (SystemExit code), st') ->
  (code = 1 /\
   actuator_calls st' = actuator_calls st /\
   current_speed st' = current_speed st)
  \/
  (code = 0 /\ exists before, calls st' = before ++ [Shell CMD_AUTO]).
Proof.
  intros Hrun. rewrite run_from_startup in Hrun.
  destruct (run w 0 st) as [[a | r | ] st0] eqn:Hstart.
  - discriminate Hrun.
  - inversion Hrun; subst r st0. left.
    destruct (startup_exit_status st code st' Hstart)
      as (Hcode & Hspeed & _ & Hact).
    repeat split; assumption.
  - right. eapply loop_exit_status. exact Hrun.
Qed.

(** X11: with both tools present and the two IPMI commands running to
    completion, the first four processes that [run] spawns are the two
    probes, the manual-mode command and the duty-cycle command for the
    level the controller starts with: the initial level is committed
    before the first sensor is read. *)
Theorem run_commits_before_reading_sensors
  cycles st out1 out2 rc1 o1 rc2 o2 :
  proc (w (clock st)) (WHICH "ipmitool") = Completed 0 out1 ->
  proc (w (clock st)) (WHICH "nvidia-smi") = Completed 0 out2 ->
  proc (w (clock st)) (Shell CMD_MANUAL) = Completed rc1 o1 ->
  proc (w (clock st)) (Shell (CMD_SPEED (current_speed st)))
  = Completed rc2 o2 ->
  exists rest,
    calls (snd (run w cycles st))
    = (calls st ++ [WHICH "ipmitool"; WHICH "nvidia-smi"; Shell CMD_MANUAL;
                    Shell (CMD_SPEED (current_speed st))]) ++ rest.
Proof.
  intros Hw1 Hw2 Hm Hs.
  rewrite run_from_startup.
  assert (Hstart :
            exists st0,
              run w 0 st = (Unfinished, st0) /\
              calls st0
              = calls st ++ [WHICH "ipmitool"; WHICH "nvidia-smi";
                             Shell CMD_MANUAL;
                             Shell (CMD_SPEED (current_speed st))]).
  { unfold run. unfold bind at 1.
    rewrite (check_commands_found w st out1 out2 Hw1 Hw2).
    unfold bind at 1, logger at 1. unfold bind at 1, get_current_speed at 1.
    unfold bind at 1.
    set (st1 := add_log LvInfo MsgStarting
                  (add_call (WHICH "nvidia-smi")
                     (add_call (WHICH "ipmitool") st))).
    destruct (set_fan_speed_calls w (current_speed st1)
                "initial setting" st1 rc1 o1 rc2 o2 Hm Hs)
      as (Hok & Hcalls & _).
    destruct (set_fan_speed w (current_speed st1) "initial setting" st1)
      as [r st2]; cbn in Hok, Hcalls. subst r.
    exists st2. split; [reflexivity | ].
    rewrite Hcalls. cbn. rewrite <- !app_assoc. reflexivity. }
  destruct Hstart as (st0 & Hstart & Hcalls0). rewrite Hstart.
  rewrite <- Hcalls0.
  apply (preserves_loop_with_handlers w (calls_extend (calls st0))
           (stable_calls_extend (calls st0)) cycles).
  - intros v _ s Hs'. exact Hs'.
  - exists []. symmetry. apply app_nil_r.
Qed.

End RunOutcome.

Lemma run_exit_status_witness :
  run (builtins := ascii_builtins) (always zone_io_error) 1 initial_state
  = (Raise (SystemExit 0),
     snd (run (builtins := ascii_builtins) (always zone_io_error)
            1 initial_state))
  /\ exists before,
       calls (snd (run (builtins := ascii_builtins) (always zone_io_error)
                     1 initial_state))
       = before ++ [Shell CMD_AUTO].
Proof.
  assert (Hrun :
            run (builtins := ascii_builtins) (always zone_io_error)
              1 initial_state
            = (Raise (SystemExit 0),
               snd (run (builtins := ascii_builtins) (always zone_io_error)
                      1 initial_state)))
    by (vm_compute; reflexivity).
  split; [exact Hrun | ].
  destruct (run_exit_status (builtins := ascii_builtins)
              (always zone_io_error) 1 initial_state 0 _ Hrun)
    as [(Hcode & _) | (_ & Hlast)].
  - discriminate Hcode.
  - exact Hlast.
Defined.

Lemma run_commits_before_reading_sensors_witness :
  exists rest,
    calls (snd (run (builtins := ascii_builtins) (always bmc_rejects_max)
                  2 initial_state))
    = [WHICH "ipmitool"; WHICH "nvidia-smi"; Shell CMD_MANUAL;
       Shell (CMD_SPEED FAN_DEFAULT)] ++ rest.
Proof.
  apply (run_commits_before_reading_sensors
           (builtins := ascii_builtins) (always bmc_rejects_max)
           2 initial_state EmptyString EmptyString 0 EmptyString
           0 EmptyString eq_refl eq_refl eq_refl eq_refl).
Defined.

(** ** Further properties of the sensor readers *)

Section SensorValues.

Context {builtins : PyBuiltins}.
Variable w : world.

Lemma gpu_rows_cons line rest :
  gpu_rows (line :: rest)
  = match gpu_row line with
    | Some (Some row) => row :: gpu_rows rest
    | _ => gpu_rows rest
    end.
Proof.
  unfold gpu_rows. cbn [flat_map].
  destruct (gpu_row line) as [[row | ] | ]; reflexivity.
Qed.

(** When every row parses, the loop returns the two running maxima. *)
Lemma gpu_loop_parsed lines : forall max_temp max_util st,
  gpu_rows_parse lines ->
  gpu_loop lines max_temp max_util st
  = (Ok (max_of max_temp (map fst (gpu_rows lines)),
         max_of max_util (map snd (gpu_rows lines))), st).
Proof.
  induction lines as [ | line rest IH]; intros max_temp max_util st Hparse.
  - reflexivity.
  - assert (Hrest : gpu_rows_parse rest)
      by (intros l Hin; apply Hparse; right; exact Hin).
    pose proof (Hparse line (or_introl eq_refl)) as Hline.
    rewrite gpu_rows_cons. cbn [gpu_loop].
    unfold gpu_row in Hline |- *.
    destruct (truthy (str_strip line)); [ | apply IH; exact Hrest].
    destruct (str_split "," line) as [ | part0 [ | part1 parts]];
      try (apply IH; exact Hrest).
    unfold bind, py_int.
    destruct (int_of_str (str_strip part0)) as [temp | ];
      [ | contradiction Hline; reflexivity].
    cbn. destruct (int_of_str (str_strip part1)) as [util | ];
      [ | contradiction Hline; reflexivity].
    cbn. rewrite !gtb_max, (IH _ _ _ Hrest). unfold max_of.
    cbn [map fst snd fold_right]. fold (max_of max_temp (map fst (gpu_rows rest))).
    fold (max_of max_util (map snd (gpu_rows rest))).
    rewrite <- !max_of_base. reflexivity.
Qed.

(** X12: [get_gpu_data] returns the maximum temperature and the maximum
    utilization over the rows of the [nvidia-smi] output, each clamped
    below at 0, when every row parses; blank lines and lines without a
    comma are skipped and fields after the second are ignored.  An empty
    output gives (0, 0). *)
Theorem gpu_data_is_maximum_over_rows st text :
  proc (w (clock st)) (Shell CMD_NVIDIA_SMI) = Completed 0 text ->
  (truthy (str_strip text) = false ->
   get_gpu_data w st = (Ok (0, 0), add_call (Shell CMD_NVIDIA_SMI) st))
  /\
  (truthy (str_strip text) = true ->
   gpu_rows_parse (str_split LF (str_strip text)) ->
   get_gpu_data w st
   = (Ok (max_of 0 (map fst (gpu_rows (str_split LF (str_strip text)))),
          max_of 0 (map snd (gpu_rows (str_split LF (str_strip text))))),
      add_call (Shell CMD_NVIDIA_SMI) st)).
Proof.
  intros Hproc.
  split; [intros Hempty | intros Hfull Hparse];
    unfold get_gpu_data, try_except, bind at 1;
    rewrite (run_command_succeeds w _ _ _ _ Hproc).
  - rewrite Hempty. reflexivity.
  - rewrite Hfull, (gpu_loop_parsed _ _ _ _ Hparse). reflexivity.
Qed.

(** A line that raises ends the fallback loop with the maximum of the
    lines before it. *)
Lemma sensors_loop_partial before : forall bad after max_temp e,
  extraction_succeeds before ->
  extracted_temp bad = Some (inr e) ->
  sensors_loop (before ++ bad :: after) max_temp
  = (max_of max_temp (extracted_temps before), Some e).
Proof.
  induction before as [ | line rest IH]; intros bad after max_temp e Hparse Hbad.
  - cbn [app sensors_loop]. unfold extracted_temp in Hbad.
    destruct (str_in "Package id" bad && str_in DEGREES_C bad);
      [ | discriminate Hbad].
    destruct (nth_error (str_split "+" bad) 1) as [after_plus | ].
    + destruct (int_of_float_str _) as [temp | e'];
        inversion Hbad. reflexivity.
    + inversion Hbad. reflexivity.
  - assert (Hrest : extraction_succeeds rest)
      by (intros l e' Hin; apply Hparse; right; exact Hin).
    pose proof (Hparse line) as Hline.
    cbn [app sensors_loop extracted_temps flat_map].
    unfold extracted_temp in Hline |- *.
    destruct (str_in "Package id" line && str_in DEGREES_C line).
    + destruct (nth_error (str_split "+" line) 1) as [after_plus | ].
      * destruct (int_of_float_str _) as [temp | e'].
        -- rewrite gtb_max, (IH _ _ _ _ Hrest Hbad). cbn [app].
           fold (extracted_temps rest). cbn [max_of fold_right].
           fold (max_of max_temp (extracted_temps rest)).
           f_equal. apply max_of_base.
        -- exfalso. apply (Hline e'); [left; reflexivity | reflexivity].
      * exfalso. apply (Hline IndexError); [left; reflexivity | reflexivity].
    + cbn [app]. apply IH; assumption.
Qed.

(** The primary source when it has nothing above 0 degrees to offer. *)
Lemma get_cpu_temp_falls_back st :
  (forall e, In (FileRaises e) (thermal_zones (w (clock st))) ->
             zone_error_caught e = true) ->
  max_of 0 (zone_readings (thermal_zones (w (clock st)))) <= 0 ->
  get_cpu_temp w st = sensors_fallback w 0 st.
Proof.
  intros Hcaught Hmax.
  pose proof (max_of_ge 0 (zone_readings (thermal_zones (w (clock st)))))
    as Hge.
  unfold get_cpu_temp, bind, glob_thermal_zones.
  rewrite (thermal_zone_loop_recovers _ 0 st Hcaught).
  replace (max_of 0 (zone_readings (thermal_zones (w (clock st)))))
    with 0 by lia.
  reflexivity.
Qed.

(** X13: provided the errors raised by reading the thermal zone files
    are among [FileNotFoundError], [PermissionError] and [ValueError]:
    when the thermal zones offer nothing above 0 degrees and a line of the
    [sensors] output is unreadable (a package line without any [+], or
    one whose positive reading does not convert) while the lines before it
    are well formed with positive package readings that convert,
    [get_cpu_temp] returns the maximum of 0 and the readings of the lines
    before it, ignores the lines after it, and logs one warning. *)
Theorem cpu_fallback_keeps_partial_maximum st text before bad after e :
  (forall e', In (FileRaises e') (thermal_zones (w (clock st))) ->
              zone_error_caught e' = true) ->
  max_of 0 (zone_readings (thermal_zones (w (clock st)))) <= 0 ->
  proc (w (clock st)) (Shell CMD_SENSORS) = Completed 0 text ->
  str_split LF (str_strip text) = map render before ++ bad :: after ->
  lines_read before ->
  unreadable bad e ->
  get_cpu_temp w st
  = (Ok (max_of 0 (readings before)),
     add_log LvWarning (MsgSensorsFailed e)
       (add_call (Shell CMD_SENSORS) st)).
Proof.
  intros Hcaught Hmax Hproc Hsplit Hread Hunreadable.
  pose proof (extracted_temp_unreadable bad e Hunreadable) as Hbad.
  rewrite (get_cpu_temp_falls_back st Hcaught Hmax).
  unfold sensors_fallback, bind at 1, try_except, bind at 1.
  rewrite (run_command_succeeds w _ _ _ _ Hproc). cbn.
  destruct (truthy (str_strip text)) eqn:Htext.
  - rewrite Hsplit.
    rewrite (sensors_loop_partial _ _ _ _ _
               (extraction_succeeds_render before Hread) Hbad).
    rewrite (extracted_temps_render before
               (lines_read_well_formed before Hread)).
    reflexivity.
  - exfalso. destruct (str_strip text); [ | discriminate Htext].
    cbn in Hsplit.
    destruct before as [ | l before']; inversion Hsplit; subst.
    + discriminate Hbad.
    + destruct before'; discriminate.
Qed.

(** X14: provided the errors raised by reading the thermal zone files
    are among [FileNotFoundError], [PermissionError] and [ValueError]:
    when the thermal zones offer nothing above 0 degrees and [sensors]
    exits with a non-zero status (logged as a failed command) or cannot be
    spawned (logged as a warning), [get_cpu_temp] returns 0. *)
Theorem cpu_temp_is_0_when_all_sources_fail st :
  (forall e, In (FileRaises e) (thermal_zones (w (clock st))) ->
             zone_error_caught e = true) ->
  max_of 0 (zone_readings (thermal_zones (w (clock st)))) <= 0 ->
  (forall rc out,
     proc (w (clock st)) (Shell CMD_SENSORS) = Completed rc out ->
     rc <> 0 ->
     get_cpu_temp w st
     = (Ok 0,
        add_log LvError
          (MsgError (CalledProcessError rc (Shell CMD_SENSORS)))
          (add_log LvError (MsgCommandFailed (Shell CMD_SENSORS))
             (add_call (Shell CMD_SENSORS) st))))
  /\
  (forall e,
     proc (w (clock st)) (Shell CMD_SENSORS) = SpawnRaises e ->
     (forall rc cmd, e <> CalledProcessError rc cmd) ->
     get_cpu_temp w st
     = (Ok 0,
        add_log LvWarning (MsgSensorsFailed e)
          (add_call (Shell CMD_SENSORS) st))).
Proof.
  intros Hcaught Hmax.
  rewrite (get_cpu_temp_falls_back st Hcaught Hmax).
  split.
  - intros rc out Hproc Hrc.
    unfold sensors_fallback, bind at 1, try_except, bind at 1.
    rewrite (run_command_fails w _ _ _ _ _ Hproc Hrc). reflexivity.
  - intros e Hproc Hne.
    unfold sensors_fallback, bind at 1, try_except, bind at 1.
    rewrite (run_command_spawn_raises w _ _ _ _ Hproc Hne). reflexivity.
Qed.

(** X15: reading the sensors leaves the controller alone: whatever the
    environment does, [get_gpu_data] and [get_cpu_temp] change neither
    [current_speed] nor the clock and send nothing to the BMC;
    [get_gpu_data] spawns exactly its one query. *)
Theorem sensor_reads_leave_controller_alone st :
  sensor_frame st (snd (get_gpu_data w st)) /\
  calls (snd (get_gpu_data w st)) = calls st ++ [Shell CMD_NVIDIA_SMI] /\
  sensor_frame st (snd (get_cpu_temp w st)).
Proof.
  destruct (get_gpu_data_returns w st)
    as (t & u & st1 & Hgpu & _ & _ & Hcalls & Hspeed & Hclock).
  rewrite Hgpu. cbn [snd]. repeat split; try assumption.
  - unfold actuator_calls. rewrite Hcalls, filter_app. apply app_nil_r.
  - destruct (get_cpu_temp_cases w st)
      as [(v & st2 & Hcpu & _ & Hframe) | (e & _ & _ & Hraise)].
    + rewrite Hcpu. apply Hframe.
    + rewrite Hraise. reflexivity.
  - destruct (get_cpu_temp_cases w st)
      as [(v & st2 & Hcpu & _ & Hframe) | (e & _ & _ & Hraise)].
    + rewrite Hcpu. apply Hframe.
    + rewrite Hraise. reflexivity.
  - destruct (get_cpu_temp_cases w st)
      as [(v & st2 & Hcpu & _ & Hframe) | (e & _ & _ & Hraise)].
    + rewrite Hcpu. apply Hframe.
    + rewrite Hraise. reflexivity.
Qed.

End SensorValues.

Ltac rows_parse :=
  let line := fresh "line" in
  let Hin := fresh "Hin" in
  intros line Hin; vm_compute in Hin;
  repeat match type of Hin with
         | _ \/ _ => destruct Hin as [Hin | Hin]
         end;
  solve [ contradiction | subst line; vm_compute; intros Hrow; discriminate Hrow ].

(** Three GPUs at (61, 35), (74, 12) and (58, 97). *)
Lemma gpu_data_is_maximum_over_rows_witness :
  get_gpu_data (builtins := ascii_builtins) (always three_gpus) initial_state
  = (Ok (74, 97), add_call (Shell CMD_NVIDIA_SMI) initial_state).
Proof.
  pose proof (gpu_data_is_maximum_over_rows
                (builtins := ascii_builtins) (always three_gpus)
                initial_state _ eq_refl) as (_ & Hrows).
  apply Hrows.
  - reflexivity.
  - rows_parse.
Defined.

(** Packages at 45 and 52 degrees, then one without a reading, then one at
    90 degrees that is never looked at. *)
Lemma cpu_fallback_keeps_partial_maximum_witness :
  get_cpu_temp (builtins := ascii_builtins) (always package_without_reading)
    initial_state
  = (Ok 52,
     add_log LvWarning (MsgSensorsFailed IndexError)
       (add_call (Shell CMD_SENSORS) initial_state)).
Proof.
  apply (cpu_fallback_keeps_partial_maximum
           (builtins := ascii_builtins) (always package_without_reading)
           initial_state sensors_with_gap
           packages_before_gap
           "Package id 2:  N/A°C"
           ["Package id 3:  +90.0°C"]%string
           IndexError).
  - intros e' Hin. contradiction Hin.
  - vm_compute. discriminate.
  - reflexivity.
  - vm_compute. reflexivity.
  - intros l [<- | [<- | []]]; (split; [reflexivity | ]);
      intros e; vm_compute; discriminate.
  - left. vm_compute. repeat split; reflexivity.
Defined.

Lemma cpu_temp_is_0_when_all_sources_fail_witness :
  fst (get_cpu_temp (builtins := ascii_builtins) (always sensor_blackout)
         initial_state) = Ok 0.
Proof.
  assert (Hcaught :
            forall e, In (FileRaises e) (thermal_zones sensor_blackout) ->
                      zone_error_caught e = true)
    by (intros e Hin; contradiction Hin).
  assert (Hmax :
            max_of 0 (zone_readings (builtins := ascii_builtins)
                        (thermal_zones sensor_blackout)) <= 0)
    by (vm_compute; discriminate).
  assert (Hrc : 1 <> 0) by lia.
  pose proof (cpu_temp_is_0_when_all_sources_fail
                (builtins := ascii_builtins) (always sensor_blackout)
                initial_state Hcaught Hmax) as (Hexit & _).
  rewrite (Hexit 1 EmptyString eq_refl Hrc). reflexivity.
Defined.

(** ** Further properties of a control cycle *)

Section CycleOutcome.

Context {builtins : PyBuiltins}.
Variable w : world.

(** A cycle whose telemetry has been read comes down to the decision and
    the commit. *)
Lemma loop_body_after_telemetry
  st gpu_temp gpu_util cpu_temp st1 st2 new_speed reason :
  get_gpu_data w st = (Ok (gpu_temp, gpu_util), st1) ->
  get_cpu_temp w st1 = (Ok cpu_temp, st2) ->
  fst (determine_fan_speed gpu_temp cpu_temp gpu_util
         (add_log LvInfo (MsgTemperatures gpu_temp cpu_temp gpu_util) st2))
  = Ok (new_speed, reason) ->
  loop_body w st
  = ((if negb (new_speed =?
               current_speed
                 (add_log LvInfo
                    (MsgTemperatures gpu_temp cpu_temp gpu_util) st2))
      then set_fan_speed w new_speed reason
      else ret tt) ;; time_sleep)
      (add_log LvInfo (MsgTemperatures gpu_temp cpu_temp gpu_util) st2).
Proof.
  intros Hgpu Hcpu Hdecision.
  set (st3 := add_log LvInfo (MsgTemperatures gpu_temp cpu_temp gpu_util) st2)
    in *.
  destruct (determine_fan_speed_pure gpu_temp cpu_temp gpu_util st3)
    as (decision & Hdet).
  rewrite Hdet in Hdecision. cbn in Hdecision.
  inversion Hdecision; subst decision.
  unfold loop_body. unfold bind at 1. rewrite Hgpu.
  unfold bind at 1. rewrite Hcpu.
  unfold bind at 1. unfold logger at 1. fold st3.
  unfold bind at 1. rewrite Hdet.
  unfold bind at 1. unfold get_current_speed at 1. reflexivity.
Qed.

(** The CPU temperature when the zones offer nothing and [sensors] exits
    with a non-zero status. *)
Lemma get_cpu_temp_sensors_exit st rc out :
  (forall e, In (FileRaises e) (thermal_zones (w (clock st))) ->
             zone_error_caught e = true) ->
  max_of 0 (zone_readings (thermal_zones (w (clock st)))) <= 0 ->
  proc (w (clock st)) (Shell CMD_SENSORS) = Completed rc out ->
  rc <> 0 ->
  fst (get_cpu_temp w st) = Ok 0.
Proof.
  intros Hcaught Hmax Hproc Hrc.
  rewrite (get_cpu_temp_falls_back w st Hcaught Hmax).
  unfold sensors_fallback, bind at 1, try_except, bind at 1.
  rewrite (run_command_fails w _ _ _ _ _ Hproc Hrc). reflexivity.
Qed.

(** A record that is in the log stays there. *)
Lemma set_fan_speed_keeps_log entry speed_hex reason st :
  In entry (log st) ->
  In entry (log (snd (set_fan_speed w speed_hex reason st))).
Proof.
  apply (preserves_set_fan_speed w (fun s => In entry (log s))).
  - repeat split.
    + intros lv msg s Hin. cbn. apply in_or_app. left. exact Hin.
    + intros inv s Hin. exact Hin.
    + intros s Hin. exact Hin.
  - intros s Hin. exact Hin.
Qed.

(** X16: a controller that cannot read any sensor goes to [FAN_DEFAULT],
    whatever level it was at.  Provided the errors raised by reading the
    thermal zone files are among [FileNotFoundError], [PermissionError]
    and [ValueError]: when [nvidia-smi] and [sensors] exit with a non-zero
    status and the thermal zones offer nothing above 0 degrees, the
    telemetry is (0, 0, 0) and is logged as such, the cycle returns
    normally, and, the two IPMI commands running to completion,
    [current_speed] is [FAN_DEFAULT] after it. *)
Theorem sensor_blackout_drops_to_default
  st rc_gpu out_gpu rc_cpu out_cpu rc1 o1 rc2 o2 :
  proc (w (clock st)) (Shell CMD_NVIDIA_SMI) = Completed rc_gpu out_gpu ->
  rc_gpu <> 0 ->
  (forall e, In (FileRaises e) (thermal_zones (w (clock st))) ->
             zone_error_caught e = true) ->
  max_of 0 (zone_readings (thermal_zones (w (clock st)))) <= 0 ->
  proc (w (clock st)) (Shell CMD_SENSORS) = Completed rc_cpu out_cpu ->
  rc_cpu <> 0 ->
  proc (w (clock st)) (Shell CMD_MANUAL) = Completed rc1 o1 ->
  proc (w (clock st)) (Shell (CMD_SPEED FAN_DEFAULT)) = Completed rc2 o2 ->
  fst (get_gpu_data w st) = Ok (0, 0) /\
  fst (get_cpu_temp w (snd (get_gpu_data w st))) = Ok 0 /\
  fst (loop_body w st) = Ok tt /\
  In (LvInfo, MsgTemperatures 0 0 0) (log (snd (loop_body w st))) /\
  current_speed (snd (loop_body w st)) = FAN_DEFAULT.
Proof.
  intros Hgpu_proc Hgpu_rc Hcaught Hmax Hcpu_proc Hcpu_rc Hmanual Hspeed.
  (* the GPU query yields (0, 0) *)
  destruct (get_gpu_data_returns w st)
    as (t & u & st1 & Hgpu & _ & _ & _ & Hspeed1 & Hclock1).
  assert (Hzero : fst (get_gpu_data w st) = Ok (0, 0)).
  { apply get_gpu_data_command_fails. left. eauto. }
  rewrite Hgpu in Hzero. cbn in Hzero. inversion Hzero; subst t u.
  (* the CPU temperature is 0 *)
  rewrite <- Hclock1 in Hcaught, Hmax, Hcpu_proc.
  pose proof (get_cpu_temp_sensors_exit st1 rc_cpu out_cpu
                Hcaught Hmax Hcpu_proc Hcpu_rc) as Hcpu0.
  destruct (get_cpu_temp_cases w st1)
    as [(v & st2 & Hcpu & _ & Hspeed2 & Hclock2 & _)
       | (e & _ & _ & Hraise)];
    [ | rewrite Hraise in Hcpu0; discriminate Hcpu0].
  rewrite Hcpu in Hcpu0. cbn in Hcpu0. inversion Hcpu0; subst v.
  split; [rewrite Hgpu; reflexivity | ].
  split; [rewrite Hgpu; cbn [snd]; rewrite Hcpu; reflexivity | ].
  (* the decision is FAN_DEFAULT *)
  rewrite (loop_body_after_telemetry st 0 0 0 st1 st2
             FAN_DEFAULT REASON_LOW Hgpu Hcpu eq_refl).
  set (st3 := add_log LvInfo (MsgTemperatures 0 0 0) st2).
  assert (Hclock3 : clock st3 = clock st) by (cbn; congruence).
  assert (Hlog3 : In (LvInfo, MsgTemperatures 0 0 0) (log st3))
    by (cbn; apply in_or_app; right; left; reflexivity).
  destruct (Z.eqb_spec FAN_DEFAULT (current_speed st3)) as [Heq | Hne];
    cbn [negb].
  - cbn. split; [reflexivity | ].
    split; [apply in_or_app; right; left; reflexivity | symmetry; exact Heq].
  - rewrite <- Hclock3 in Hmanual, Hspeed.
    destruct (set_fan_speed_when_complete w FAN_DEFAULT REASON_LOW st3
                rc1 o1 rc2 o2 Hmanual Hspeed
                (fan_levels_fit FAN_DEFAULT (or_introl eq_refl)))
      as (Hok & _ & Hnew & _).
    pose proof (set_fan_speed_keeps_log _ FAN_DEFAULT REASON_LOW st3 Hlog3)
      as Hlog4.
    unfold bind.
    destruct (set_fan_speed w FAN_DEFAULT REASON_LOW st3) as [r st4].
    cbn in Hok, Hnew, Hlog4. subst r. cbn.
    split; [reflexivity | split; [exact Hlog4 | exact Hnew]].
Qed.

(** X17: a cycle ends in one of two ways.  It returns, having slept once;
    or it raises the exception of a thermal zone that line 142 does not
    catch, and then nothing has gone to the BMC, [current_speed] is as it
    was, and the cycle has not slept. *)
Theorem loop_body_outcome st :
  match loop_body w st with
  | (Ok _, st') => clock st' = S (clock st)
  | (Raise r, st') =>
      exists e,
        r = Exc e /\
        In (FileRaises e) (thermal_zones (w (clock st))) /\
        zone_error_caught e = false /\
        sensor_frame st st'
  | (Unfinished, _) => False
  end.
Proof.
  destruct (get_gpu_data_returns w st)
    as (t & u & st1 & Hgpu & _ & _ & Hcalls1 & Hspeed1 & Hclock1).
  assert (Hframe1 : sensor_frame st st1).
  { repeat split; try assumption.
    unfold actuator_calls. rewrite Hcalls1, filter_app. apply app_nil_r. }
  destruct (get_cpu_temp_cases w st1)
    as [(v & st2 & Hcpu & _ & Hspeed2 & Hclock2 & _)
       | (e & Hin & Hun & Hraise)].
  - destruct (determine_fan_speed_pure t v u
                (add_log LvInfo (MsgTemperatures t v u) st2))
      as ([new_speed reason] & Hdet).
    rewrite (loop_body_after_telemetry st t u v st1 st2 new_speed reason
               Hgpu Hcpu)
      by (rewrite Hdet; reflexivity).
    set (st3 := add_log LvInfo (MsgTemperatures t v u) st2).
    assert (Hclock3 : clock st3 = clock st) by (cbn; congruence).
    destruct (negb (new_speed =? current_speed st3)).
    + unfold bind.
      destruct (set_fan_speed_effect w new_speed reason st3)
        as (st4 & more & Hset & _ & Hclock4).
      rewrite Hset. cbn. congruence.
    + cbn. congruence.
  - assert (Hbody : loop_body w st = (Raise (Exc e), st1)).
    { unfold loop_body. unfold bind at 1. rewrite Hgpu.
      unfold bind at 1. rewrite Hraise. reflexivity. }
    rewrite Hbody. exists e. rewrite <- Hclock1.
    repeat split; try assumption; apply Hframe1.
Qed.

End CycleOutcome.

(** From [FAN_MAX], with [nvidia-smi] and [sensors] failing and no thermal
    zone, one cycle takes the controller to [FAN_DEFAULT]. *)
Lemma sensor_blackout_drops_to_default_witness :
  current_speed (with_speed FAN_MAX initial_state) = FAN_MAX
  /\ In (LvInfo, MsgTemperatures 0 0 0)
       (log (snd (loop_body (builtins := ascii_builtins)
                    (always sensor_blackout)
                    (with_speed FAN_MAX initial_state))))
  /\ current_speed
       (snd (loop_body (builtins := ascii_builtins) (always sensor_blackout)
               (with_speed FAN_MAX initial_state))) = FAN_DEFAULT.
Proof.
  split; [reflexivity | ].
  assert (Hcaught :
            forall e, In (FileRaises e) (thermal_zones sensor_blackout) ->
                      zone_error_caught e = true)
    by (intros e Hin; contradiction Hin).
  assert (Hmax :
            max_of 0 (zone_readings (builtins := ascii_builtins)
                        (thermal_zones sensor_blackout)) <= 0)
    by (vm_compute; discriminate).
  assert (Hrc : 1 <> 0) by lia.
  apply (sensor_blackout_drops_to_default
           (builtins := ascii_builtins) (always sensor_blackout)
           (with_speed FAN_MAX initial_state)
           1 EmptyString 1 EmptyString 0 EmptyString 0 EmptyString
           eq_refl Hrc Hcaught Hmax eq_refl Hrc eq_refl eq_refl).
Defined.

(** ** The duty-cycle token *)

Lemma byte_values_complete n : 0 <= n < 256 -> In n byte_values.
Proof.
  intros Hn. unfold byte_values. apply in_map_iff.
  exists (Z.to_nat n). split; [lia | ].
  apply in_seq. lia.
Qed.

(** X18: for a duty cycle between 0 and 255 the token that
    [set_fan_speed] appends to the IPMI command has exactly four
    characters ([0x] and two digits), and different duty cycles give
    different commands. *)
Theorem duty_cycle_token_is_one_byte n m :
  0 <= n < 256 -> 0 <= m < 256 ->
  String.length (format_hex04 n) = 4%nat /\
  (CMD_SPEED n = CMD_SPEED m -> n = m).
Proof.
  intros Hn Hm.
  assert (Hall :
            forallb (fun a =>
                       Nat.eqb (String.length (format_hex04 a)) 4 &&
                       forallb (fun b =>
                                  implb (String.eqb (CMD_SPEED a) (CMD_SPEED b))
                                        (a =? b)) byte_values)
                    byte_values = true)
    by (vm_compute; reflexivity).
  rewrite forallb_forall in Hall.
  specialize (Hall n (byte_values_complete n Hn)).
  apply andb_true_iff in Hall. destruct Hall as [Hlen Hinj].
  split.
  - apply Nat.eqb_eq. exact Hlen.
  - intros Hcmd. rewrite forallb_forall in Hinj.
    specialize (Hinj m (byte_values_complete m Hm)).
    rewrite Hcmd, String.eqb_refl in Hinj. cbn in Hinj.
    apply Z.eqb_eq. exact Hinj.
Qed.

Lemma duty_cycle_token_is_one_byte_witness :
  format_hex04 FAN_HIGH = "0x48"%string
  /\ String.length (format_hex04 FAN_HIGH) = 4%nat.
Proof.
  split; [reflexivity | ].
  apply (duty_cycle_token_is_one_byte FAN_HIGH FAN_MAX);
    unfold FAN_HIGH, FAN_MAX; lia.
Defined.

(** ** Commits and steady states *)

Section Steady.

Context {builtins : PyBuiltins}.
Variable w : world.

(** What is known of the state in which a cycle takes its decision. *)
Lemma telemetry_frame st gpu_temp gpu_util cpu_temp st1 st2 :
  get_gpu_data w st = (Ok (gpu_temp, gpu_util), st1) ->
  get_cpu_temp w st1 = (Ok cpu_temp, st2) ->
  sensor_frame st
    (add_log LvInfo (MsgTemperatures gpu_temp cpu_temp gpu_util) st2).
Proof.
  intros Hgpu Hcpu.
  destruct (get_gpu_data_returns w st)
    as (t & u & st1' & Hgpu' & _ & _ & Hcalls1 & Hspeed1 & Hclock1).
  rewrite Hgpu in Hgpu'. inversion Hgpu'; subst t u st1'.
  destruct (get_cpu_temp_cases w st1)
    as [(v & st2' & Hcpu' & _ & Hspeed2 & Hclock2 & Hact2)
       | (e & _ & _ & Hraise)];
    [ | rewrite Hcpu in Hraise; discriminate].
  rewrite Hcpu in Hcpu'. inversion Hcpu'; subst v st2'.
  assert (Hact1 : actuator_calls st1 = actuator_calls st)
    by (rewrite (actuator_calls_app _ _ _ Hcalls1); apply app_nil_r).
  repeat split; cbn; try congruence.
  unfold actuator_calls in *. cbn [calls add_log]. congruence.
Qed.

(** X19: a cycle that decides for another level than the current one, the
    two IPMI commands running to completion, sends exactly the manual-mode
    command and the duty-cycle command of the decision, and tracks the
    decision from then on. *)
Theorem cycle_commits_decision
  st gpu_temp gpu_util cpu_temp st1 st2 new_speed reason rc1 o1 rc2 o2 :
  get_gpu_data w st = (Ok (gpu_temp, gpu_util), st1) ->
  get_cpu_temp w st1 = (Ok cpu_temp, st2) ->
  fst (determine_fan_speed gpu_temp cpu_temp gpu_util st)
  = Ok (new_speed, reason) ->
  new_speed <> current_speed st ->
  proc (w (clock st)) (Shell CMD_MANUAL) = Completed rc1 o1 ->
  proc (w (clock st)) (Shell (CMD_SPEED new_speed)) = Completed rc2 o2 ->
  fst (loop_body w st) = Ok tt /\
  actuator_calls (snd (loop_body w st))
  = actuator_calls st ++ [Shell CMD_MANUAL; Shell (CMD_SPEED new_speed)] /\
  current_speed (snd (loop_body w st)) = new_speed.
Proof.
  intros Hgpu Hcpu Hdecision Hne Hmanual Hspeed.
  destruct (telemetry_frame st _ _ _ _ _ Hgpu Hcpu)
    as (Hspeed3 & Hclock3 & Hact3).
  set (st3 := add_log LvInfo (MsgTemperatures gpu_temp cpu_temp gpu_util) st2)
    in *.
  assert (Hdecision3 :
            fst (determine_fan_speed gpu_temp cpu_temp gpu_util st3)
            = Ok (new_speed, reason)).
  { rewrite (determine_fan_speed_current _ _ _ st3 st Hspeed3).
    exact Hdecision. }
  rewrite (loop_body_after_telemetry w st _ _ _ _ _ _ _ Hgpu Hcpu Hdecision3).
  fold st3. rewrite Hspeed3.
  replace (new_speed =? current_speed st) with false
    by (symmetry; apply Z.eqb_neq; exact Hne).
  cbn [negb]. rewrite <- Hclock3 in Hmanual, Hspeed.
  assert (Hfits : true_divide_overflows new_speed 0x64 = false).
  { destruct (decision_is_level_or_current gpu_temp cpu_temp gpu_util st)
      as (v & r & Hd & [Hlevel | Hcurrent]);
      rewrite Hd in Hdecision; cbn in Hdecision;
      inversion Hdecision; subst v r.
    - apply fan_levels_fit. exact Hlevel.
    - exfalso. apply Hne. symmetry. assumption. }
  destruct (set_fan_speed_when_complete w new_speed reason st3
              rc1 o1 rc2 o2 Hmanual Hspeed Hfits)
    as (Hok & Hcalls & Hnew & _).
  unfold bind.
  destruct (set_fan_speed w new_speed reason st3) as [r st4].
  cbn [fst snd] in Hok, Hcalls, Hnew. subst r.
  unfold time_sleep. cbn [fst snd].
  split; [reflexivity | split; [ | exact Hnew]].
  unfold actuator_calls in *.
  change (calls (tick st4)) with (calls st4).
  rewrite Hcalls, filter_app, Hact3. reflexivity.
Qed.

(** A cycle that decides for the current level only reads the sensors and
    sleeps. *)
Lemma loop_body_settled st gpu_temp gpu_util cpu_temp st1 st2 reason :
  get_gpu_data w st = (Ok (gpu_temp, gpu_util), st1) ->
  get_cpu_temp w st1 = (Ok cpu_temp, st2) ->
  fst (determine_fan_speed gpu_temp cpu_temp gpu_util st)
  = Ok (current_speed st, reason) ->
  fst (loop_body w st) = Ok tt /\
  current_speed (snd (loop_body w st)) = current_speed st /\
  actuator_calls (snd (loop_body w st)) = actuator_calls st /\
  clock (snd (loop_body w st)) = S (clock st).
Proof.
  intros Hgpu Hcpu Hdecision.
  destruct (telemetry_frame st _ _ _ _ _ Hgpu Hcpu)
    as (Hspeed3 & Hclock3 & Hact3).
  set (st3 := add_log LvInfo (MsgTemperatures gpu_temp cpu_temp gpu_util) st2)
    in *.
  assert (Hdecision3 :
            fst (determine_fan_speed gpu_temp cpu_temp gpu_util st3)
            = Ok (current_speed st, reason)).
  { rewrite (determine_fan_speed_current _ _ _ st3 st Hspeed3).
    exact Hdecision. }
  rewrite (loop_body_after_telemetry w st _ _ _ _ _ _ _ Hgpu Hcpu Hdecision3).
  fold st3. rewrite Hspeed3, Z.eqb_refl. cbn.
  repeat split; try assumption. f_equal. exact Hclock3.
Qed.

(** X20: no hunting.  As long as the telemetry keeps the policy deciding
    for the level the controller is at (in the hysteresis band, for
    one), the loop runs cycle after cycle without sending anything to the
    BMC and without changing [current_speed]. *)
Theorem settled_loop_sends_nothing cycles : forall st,
  settled w st cycles ->
  fst (while_true w cycles st) = Unfinished /\
  current_speed (snd (while_true w cycles st)) = current_speed st /\
  actuator_calls (snd (while_true w cycles st)) = actuator_calls st /\
  clock (snd (while_true w cycles st)) = (clock st + cycles)%nat.
Proof.
  induction cycles as [ | cycles IH]; intros st Hsettled.
  - cbn. repeat split. lia.
  - destruct (Hsettled st) as (g & u & c & s1 & s2 & reason & Hgpu & Hcpu & Hd);
      [lia | reflexivity | ].
    destruct (loop_body_settled st g u c s1 s2 reason Hgpu Hcpu Hd)
      as (Hok & Hspeed & Hact & Hclock).
    cbn [while_true]. unfold bind.
    destruct (loop_body w st) as [r st']. cbn in Hok, Hspeed, Hact, Hclock.
    subst r.
    assert (Hnext : settled w st' cycles).
    { intros s Hrange Hlevel. rewrite Hspeed.
      apply Hsettled; [lia | congruence]. }
    destruct (IH st' Hnext) as (Hun & Hspeed' & Hact' & Hclock').
    repeat split; try congruence. lia.
Qed.

End Steady.


(** A critical reading (gpu=85, cpu=40, util=10) at DEFAULT is answered in
    the same cycle by the two commands for [FAN_MAX]. *)
Lemma cycle_commits_decision_witness :
  actuator_calls
    (snd (loop_body (builtins := ascii_builtins) (always critical_env)
            initial_state))
  = [Shell CMD_MANUAL; Shell (CMD_SPEED FAN_MAX)]
  /\ current_speed
       (snd (loop_body (builtins := ascii_builtins) (always critical_env)
               initial_state)) = FAN_MAX.
Proof.
  assert (Hne : FAN_MAX <> current_speed initial_state)
    by (vm_compute; discriminate).
  pose proof (cycle_commits_decision
                (builtins := ascii_builtins) (always critical_env)
                initial_state 85 10 40
                (add_call (Shell CMD_NVIDIA_SMI) initial_state)
                (add_call (Shell CMD_NVIDIA_SMI) initial_state)
                FAN_MAX (REASON_CRITICAL 85 40)
                0 EmptyString 0 EmptyString
                eq_refl eq_refl eq_refl Hne eq_refl eq_refl)
    as (_ & Hcalls & Hspeed).
  split; [exact Hcalls | exact Hspeed].
Defined.

(** Scenario 2 of the specification, cycle after cycle: (gpu=55, cpu=30,
    util=20) at HIGH stays at HIGH for three cycles without a single
    command to the BMC. *)
Lemma settled_loop_sends_nothing_witness :
  current_speed
    (snd (while_true (builtins := ascii_builtins) (always dead_zone_env) 3
            (with_speed FAN_HIGH initial_state))) = FAN_HIGH
  /\ actuator_calls
       (snd (while_true (builtins := ascii_builtins) (always dead_zone_env) 3
               (with_speed FAN_HIGH initial_state))) = [].
Proof.
  assert (Hsettled :
            settled (builtins := ascii_builtins) (always dead_zone_env)
              (with_speed FAN_HIGH initial_state) 3).
  { intros s _ Hlevel.
    exists 55, 20, 30,
      (add_call (Shell CMD_NVIDIA_SMI) s),
      (add_call (Shell CMD_NVIDIA_SMI) s), REASON_MAINTAIN.
    split; [reflexivity | split; [reflexivity | ]].
    rewrite <- Hlevel. reflexivity. }
  pose proof (settled_loop_sends_nothing
                (builtins := ascii_builtins) (always dead_zone_env) 3
                (with_speed FAN_HIGH initial_state) Hsettled)
    as (_ & Hspeed & Hcalls & _).
  split; [exact Hspeed | exact Hcalls].
Defined.
